(** * Estoque: the inventory dashboard of [src/estoq.py]

    The dashboard is one Streamlit script over a pandas table.  The script
    loads a CSV ([carregar_dados]), derives year and month of the last
    purchase, narrows the table by the two selectors, and renders the
    sections of the page from [df_filtrado].

    Embedding.
    - A [DataFrame] is the list of its rows in table order; a row is the
      record [Linha] of the CSV columns plus the columns the script adds
      ([ano_compra], [mes_compra], [dias_desde_ultima_compra],
      [porcentagem_avaria]).
    - Quantities are integers ([Z]), the unit cost a rational ([Q]); the
      sums of quantity columns wrap around as int64 sums do ([soma]).
    - The text cells [produto] and [fabricante] are present in every row:
      a row whose product or manufacturer is missing is outside the model.
    - pandas' date parser and date arithmetic are an interface
      ([Calendario]); the default [sort_values] is an interface with its
      contract ([Ordenacao]): pandas sorts with an algorithm that is not
      stable, so nothing is assumed about the order of equal keys.
    - The result of a float division is a [float64]: a rational, an
      infinity or NaN (rounding of finite results is not modelled).
    - The script itself runs in a small state-and-exception monad over a
      store of table objects, so that [copy], boolean indexing (fresh
      objects) and column assignment (in place) are told apart. *)

From Stdlib Require Import ZArith QArith Qabs List String Ascii Bool Lia DecimalString.
From Stdlib Require Import Permutation Sorted.
Import ListNotations.
Open Scope string_scope.
Open Scope Z_scope.
Open Scope list_scope.

(** ** Library interfaces *)

(** pandas timestamps: [pd.to_datetime(coluna, errors='coerce')] on a column
    of text cells ([None] a missing cell; in the result [None] is NaT: the
    parser works on the whole column, since it may settle on a date format
    from the cells it sees), the [.dt.year] and [.dt.month] accessors, and
    [(a - b).days]. *)
Class Calendario := {
  Timestamp : Type;
  to_datetime : list (option string) -> list (option Timestamp);
  to_datetime_length :
    forall coluna, List.length (to_datetime coluna) = List.length coluna;
  dt_year : Timestamp -> Z;
  dt_month : Timestamp -> Z;
  dt_days : Timestamp -> Timestamp -> Z
}.

(** [sort_values(by=..., ascending=False)] with the default algorithm: the
    rows come back rearranged, in descending order of the key. *)
Class Ordenacao := {
  sort_values_desc : forall {A : Type}, (A -> Z) -> list A -> list A;
  sort_values_perm :
    forall (A : Type) (chave : A -> Z) (l : list A),
      Permutation (sort_values_desc chave l) l;
  sort_values_sorted :
    forall (A : Type) (chave : A -> Z) (l : list A),
      StronglySorted (fun x y => chave y <= chave x) (sort_values_desc chave l)
}.

(** ** Generic list helpers *)

(** Stable insertion sort: Python's [sorted], and the row order of a
    stable sort. [antes x y] says that [x] may stand before [y]. *)
Fixpoint inserir {A : Type} (antes : A -> A -> bool) (x : A) (l : list A) : list A :=
  match l with
  | [] => [x]
  | y :: t => if antes x y then x :: y :: t else y :: inserir antes x t
  end.

Definition ordenar {A : Type} (antes : A -> A -> bool) (l : list A) : list A :=
  fold_right (inserir antes) [] l.

(** [Series.unique()]: the distinct values in order of first appearance. *)
Fixpoint unique {A : Type} (eqb : A -> A -> bool) (l : list A) : list A :=
  match l with
  | [] => []
  | x :: t => x :: filter (fun y => negb (eqb y x)) (unique eqb t)
  end.

(** The quantity columns are int64, and so is the accumulator of
    [Series.sum()] and of [groupby(...).sum()]: every addition wraps around
    in two's complement. *)
Definition int64 (z : Z) : Z := (z + 2 ^ 63) mod 2 ^ 64 - 2 ^ 63.

Definition soma (l : list Z) : Z := fold_right (fun x acc => int64 (x + acc)) 0 l.

(** The sum as a number, without the wrap-around. *)
Definition somatorio (l : list Z) : Z := fold_right Z.add 0 l.

Definition soma_q (l : list Q) : Q := fold_right Qplus (0 # 1)%Q l.

(** All elements of [l], or [None] as soon as one lookup fails. *)
Fixpoint todos_ou_nada {A B : Type} (f : A -> option B) (l : list A) : option (list B) :=
  match l with
  | [] => Some []
  | x :: t =>
      match f x, todos_ou_nada f t with
      | Some y, Some r => Some (y :: r)
      | _, _ => None
      end
  end.

Fixpoint indice (x : string) (l : list string) : nat :=
  match l with
  | [] => O
  | y :: t => if String.eqb y x then O else S (indice x t)
  end.

(** ** Float results *)

Inductive float64 :=
| f_num (q : Q)
| f_inf
| f_neg_inf
| f_nan.

(** numpy's true division of two integer columns, cell by cell. *)
Definition dividir (a b : Z) : float64 :=
  if b =? 0 then
    if 0 <? a then f_inf
    else if a <? 0 then f_neg_inf
    else f_nan
  else f_num (inject_Z a / inject_Z b)%Q.

Definition vezes_100 (x : float64) : float64 :=
  match x with
  | f_num q => f_num (q * 100)%Q
  | other => other
  end.

(** [fillna(0)] on a float cell: only NaN is a missing value. *)
Definition fillna_0 (x : float64) : float64 :=
  match x with
  | f_nan => f_num 0
  | other => other
  end.

Definition MESES_ABREVIADOS : list (Z * string) :=
  [ (1, "Jan"); (2, "Fev"); (3, "Mar"); (4, "Abr"); (5, "Mai"); (6, "Jun");
    (7, "Jul"); (8, "Ago"); (9, "Set"); (10, "Out"); (11, "Nov"); (12, "Dez") ].

(** The year selector's value: ['Todos'] or one of the years. *)
Inductive FiltroAno :=
| Todos
| Ano (y : Z).

Section Painel.

Context {calendario : Calendario} {ordenacao : Ordenacao}.

(** ** Data model *)

(** The column [data ultima compra]: text as read from the CSV, a
    timestamp or NaT once converted. A cell that is missing in the CSV is
    [NaT] from the start. *)
Inductive CelulaData :=
| Texto (s : string)
| Momento (t : Timestamp)
| NaT.

(** An integer column the script adds: not there yet, NaN, or a value.
    The float column [porcentagem_avaria] is [None] while it is not there. *)
Inductive Derivada :=
| SemColuna
| NaN
| Valor (z : Z).

Record Linha := mkLinha {
  produto : string;
  fabricante : string;
  quantidade_fisica : Z;
  quantidade_solicitada : Z;
  quantidade_reservada : Z;
  quantidade_disponivel : Z;
  quantidade_avariada : Z;
  custo_liquido_entrada : Q;
  data_ultima_compra : CelulaData;
  ano_compra : Derivada;
  mes_compra : Derivada;
  dias_desde_ultima_compra : Derivada;
  porcentagem_avaria : option float64
}.

Definition DataFrame := list Linha.

(** [df.empty] *)
Definition empty {A : Type} (df : list A) : bool :=
  match df with
  | [] => true
  | _ :: _ => false
  end.

Definition com_data (l : Linha) (c : CelulaData) : Linha :=
  mkLinha (produto l) (fabricante l) (quantidade_fisica l) (quantidade_solicitada l)
    (quantidade_reservada l) (quantidade_disponivel l) (quantidade_avariada l)
    (custo_liquido_entrada l) c (ano_compra l) (mes_compra l)
    (dias_desde_ultima_compra l) (porcentagem_avaria l).

Definition com_ano_mes (l : Linha) (a m : Derivada) : Linha :=
  mkLinha (produto l) (fabricante l) (quantidade_fisica l) (quantidade_solicitada l)
    (quantidade_reservada l) (quantidade_disponivel l) (quantidade_avariada l)
    (custo_liquido_entrada l) (data_ultima_compra l) a m
    (dias_desde_ultima_compra l) (porcentagem_avaria l).

Definition com_dias (l : Linha) (d : Derivada) : Linha :=
  mkLinha (produto l) (fabricante l) (quantidade_fisica l) (quantidade_solicitada l)
    (quantidade_reservada l) (quantidade_disponivel l) (quantidade_avariada l)
    (custo_liquido_entrada l) (data_ultima_compra l) (ano_compra l) (mes_compra l) d
    (porcentagem_avaria l).

Definition com_colunas (l : Linha) (a m d : Derivada) (p : option float64) : Linha :=
  mkLinha (produto l) (fabricante l) (quantidade_fisica l) (quantidade_solicitada l)
    (quantidade_reservada l) (quantidade_disponivel l) (quantidade_avariada l)
    (custo_liquido_entrada l) (data_ultima_compra l) a m d p.

(** ** What the page shows *)

Inductive Mensagem :=
| ArquivoVazio
| ArquivoNaoEncontrado
| ErroAoCarregar
| CarregueUmArquivo
| NenhumDado
| NenhumDadoComparativo
| NenhumProdutoBaixaDisponibilidade
| NenhumItemAvariado
| NenhumEstoqueParado
| NenhumProdutoCritico.

(** A row of [df_resumo_quantidades]. *)
Record LinhaResumo := mkResumo {
  r_produto : string;
  r_quantidade_fisica : Z;
  r_quantidade_solicitada : Z;
  r_quantidade_reservada : Z;
  r_quantidade_disponivel : Z
}.

(** A row of [df_desempenho_fabricante]. *)
Record LinhaDesempenho := mkDesempenho {
  d_fabricante : string;
  total_quantidade_fisica : Z;
  total_quantidade_avariada : Z;
  total_quantidade_disponivel : Z;
  total_quantidade_solicitada : Z;
  contagem_produtos : Z
}.

Inductive Elemento :=
| st_warning (m : Mensagem)
| st_error (m : Mensagem)
| st_info (m : Mensagem)
| st_metric_produtos (total_produtos : Z)
| st_metric_itens (total_itens_fisicos : Z)
| st_metric_valor (valor_total_estoque : Q)
| grafico_top_10 (dados : list (string * Z))
| tabela_resumo (linhas : list LinhaResumo)
| tabela (colunas : list string) (linhas : DataFrame)
| grafico_criticos (linhas : DataFrame)
| tabela_desempenho (linhas : list LinhaDesempenho).

(** ** Loader: [carregar_dados] *)

(** What [pd.read_csv] did: raised [FileNotFoundError], raised anything
    else, or returned the table. *)
Inductive Leitura :=
| ArquivoAusente
| FalhaLeitura
| Lido (df : DataFrame).

Definition texto (c : CelulaData) : option string :=
  match c with
  | Texto s => Some s
  | _ => None
  end.

(** A text cell becomes what the parser made of it; a cell that already is
    a timestamp (or NaT) stays. *)
Definition converter_celula (c : CelulaData) (r : option Timestamp) : CelulaData :=
  match c with
  | Texto _ =>
      match r with
      | Some t => Momento t
      | None => NaT
      end
  | other => other
  end.

(** [df['data ultima compra'] = pd.to_datetime(df['data ultima compra'], errors='coerce')] *)
Definition converter_datas (df : DataFrame) : DataFrame :=
  map (fun lr => com_data (fst lr)
                   (converter_celula (data_ultima_compra (fst lr)) (snd lr)))
      (combine df (to_datetime (map (fun l => texto (data_ultima_compra l)) df))).

Definition notna (c : CelulaData) : bool :=
  match c with
  | NaT => false
  | _ => true
  end.

(** [df.dropna(subset=['data ultima compra'])] *)
Definition dropna (df : DataFrame) : DataFrame :=
  filter (fun l => notna (data_ultima_compra l)) df.

(** The value returned ([None] is Python's [None]) and what was shown. *)
Definition carregar_dados (arquivo : Leitura) : option DataFrame * list Elemento :=
  match arquivo with
  | Lido df =>
      let df := dropna (converter_datas df) in
      if empty df then (None, [st_warning ArquivoVazio])
      else (Some df, [])
  | ArquivoAusente => (None, [st_error ArquivoNaoEncontrado])
  | FalhaLeitura => (None, [st_error ErroAoCarregar])
  end.

(** ** Year and month columns, selectors, filter *)

Definition ano_de (c : CelulaData) : Derivada :=
  match c with
  | Momento t => Valor (dt_year t)
  | _ => NaN
  end.

Definition mes_de (c : CelulaData) : Derivada :=
  match c with
  | Momento t => Valor (dt_month t)
  | _ => NaN
  end.

(** Lines 60 to 65: convert and drop again, then add the two columns. *)
Definition extrair_ano_mes (df : DataFrame) : DataFrame :=
  map (fun l => com_ano_mes l (ano_de (data_ultima_compra l)) (mes_de (data_ultima_compra l)))
      (dropna (converter_datas df)).

(** [df[coluna] == valor], on one cell. *)
Definition igual (c : Derivada) (valor : Z) : bool :=
  match c with
  | Valor z => z =? valor
  | _ => false
  end.

Definition valores (cs : list Derivada) : list Z :=
  flat_map (fun c => match c with Valor z => [z] | _ => [] end) cs.

Definition todos_anos (df_estoque : DataFrame) : list FiltroAno :=
  Todos :: map Ano (ordenar (fun a b => b <=? a)
                      (unique Z.eqb (valores (map ano_compra df_estoque)))).

(** [MESES_ABREVIADOS[m]]; [None] is the KeyError. *)
Fixpoint abreviar_em (itens : list (Z * string)) (m : Z) : option string :=
  match itens with
  | [] => None
  | (num, abbrev) :: resto => if num =? m then Some abbrev else abreviar_em resto m
  end.

Definition abreviar (c : Derivada) : option string :=
  match c with
  | Valor m => abreviar_em MESES_ABREVIADOS m
  | _ => None
  end.

Definition derivada_eqb (a b : Derivada) : bool :=
  match a, b with
  | SemColuna, SemColuna => true
  | NaN, NaN => true
  | Valor x, Valor y => x =? y
  | _, _ => false
  end.

(** Lines 76 to 81; [None] when a month has no abbreviation. *)
Definition meses_disponiveis (df_estoque : DataFrame) (ano_filtro : FiltroAno)
  : option (list string) :=
  match ano_filtro with
  | Todos => Some []
  | Ano y =>
      let meses_disponiveis_no_ano :=
        unique derivada_eqb
          (map mes_compra (filter (fun l => igual (ano_compra l) y) df_estoque)) in
      match todos_ou_nada abreviar meses_disponiveis_no_ano with
      | Some abrevs =>
          let posicao x := indice x (map snd MESES_ABREVIADOS) in
          Some (ordenar (fun a b => (posicao a <=? posicao b)%nat) abrevs)
      | None => None
      end
  end.

Definition todos_meses (df_estoque : DataFrame) (ano_filtro : FiltroAno)
  : option (list string) :=
  option_map (cons "Todos") (meses_disponiveis df_estoque ano_filtro).

(** The loop of lines 94 to 98. *)
Fixpoint num_mes_selecionado (itens : list (Z * string)) (mes_filtro : string) : option Z :=
  match itens with
  | [] => None
  | (num, abbrev) :: resto =>
      if String.eqb abbrev mes_filtro then Some num
      else num_mes_selecionado resto mes_filtro
  end.

(** Lines 87 to 100, on the rows. *)
Definition aplicar_filtros (df_estoque : DataFrame) (ano_filtro : FiltroAno)
    (mes_filtro : string) : DataFrame :=
  let df_filtrado := df_estoque in
  let df_filtrado :=
    match ano_filtro with
    | Todos => df_filtrado
    | Ano y => filter (fun l => igual (ano_compra l) y) df_filtrado
    end in
  if String.eqb mes_filtro "Todos" then df_filtrado
  else
    match num_mes_selecionado MESES_ABREVIADOS mes_filtro with
    | Some num => filter (fun l => igual (mes_compra l) num) df_filtrado
    | None => df_filtrado
    end.

(** ** The sections' computations, on the rows *)

(** [Series.nunique()] *)
Definition nunique (l : list string) : Z :=
  Z.of_nat (List.length (unique String.eqb l)).

Definition total_produtos (df_filtrado : DataFrame) : Z :=
  nunique (map produto df_filtrado).

Definition total_itens_fisicos (df_filtrado : DataFrame) : Z :=
  soma (map quantidade_fisica df_filtrado).

Definition valor_total_estoque (df_filtrado : DataFrame) : Q :=
  soma_q (map (fun l => inject_Z (quantidade_fisica l) * custo_liquido_entrada l)%Q
              df_filtrado).

(** [df.groupby(coluna)]: one group per distinct key, the keys in
    ascending order, each with its rows in table order. *)
Definition groupby (coluna : Linha -> string) (df : DataFrame)
  : list (string * DataFrame) :=
  map (fun k => (k, filter (fun l => String.eqb (coluna l) k) df))
      (ordenar String.leb (unique String.eqb (map coluna df))).

Definition df_agrupado_fabricante (df_filtrado : DataFrame) : list (string * Z) :=
  map (fun g => (fst g, soma (map quantidade_fisica (snd g))))
      (groupby fabricante df_filtrado).

Definition df_top_10_fabricantes (df_filtrado : DataFrame) : list (string * Z) :=
  firstn 10 (sort_values_desc snd (df_agrupado_fabricante df_filtrado)).

Definition df_resumo_quantidades (df_filtrado : DataFrame) : list LinhaResumo :=
  map (fun g =>
         mkResumo (fst g)
           (soma (map quantidade_fisica (snd g)))
           (soma (map quantidade_solicitada (snd g)))
           (soma (map quantidade_reservada (snd g)))
           (soma (map quantidade_disponivel (snd g))))
      (groupby produto df_filtrado).

Definition produtos_baixa_disponibilidade (df_filtrado : DataFrame)
    (limite_disponibilidade : Z) : DataFrame :=
  sort_values_desc quantidade_solicitada
    (filter (fun l => (quantidade_disponivel l <? limite_disponibilidade)
                      && (quantidade_disponivel l >=? 0))
            df_filtrado).

(** [df_filtrado[df_filtrado['quantidade avariada'] > 0]] *)
Definition df_avariado (df_filtrado : DataFrame) : DataFrame :=
  filter (fun l => quantidade_avariada l >? 0) df_filtrado.

(** Line 188: the new column of [df_avariado]. *)
Definition atribuir_porcentagem (df : DataFrame) : DataFrame :=
  map (fun l =>
         com_colunas l (ano_compra l) (mes_compra l) (dias_desde_ultima_compra l)
           (Some (vezes_100 (dividir (quantidade_avariada l) (quantidade_fisica l)))))
      df.

Definition fillna_derivada (c : Derivada) : Derivada :=
  match c with
  | NaN => Valor 0
  | other => other
  end.

(** [df.fillna(0)]: every NaN cell becomes 0.  The date column is left as
    it is: it holds no NaT once [dropna] has run. *)
Definition fillna (df : DataFrame) : DataFrame :=
  map (fun l =>
         com_colunas l (fillna_derivada (ano_compra l)) (fillna_derivada (mes_compra l))
           (fillna_derivada (dias_desde_ultima_compra l))
           (option_map fillna_0 (porcentagem_avaria l)))
      df.

(** The table of section 2, as displayed. *)
Definition analise_avarias (df_filtrado : DataFrame) : DataFrame :=
  sort_values_desc quantidade_avariada
    (fillna (atribuir_porcentagem (df_avariado df_filtrado))).

Definition dias_desde (hoje : Timestamp) (c : CelulaData) : Derivada :=
  match c with
  | Momento t => Valor (dt_days hoje t)
  | _ => NaN
  end.

(** Line 205: the new column of [df_filtrado]. *)
Definition atribuir_dias (hoje : Timestamp) (df : DataFrame) : DataFrame :=
  map (fun l => com_dias l (dias_desde hoje (data_ultima_compra l))) df.

(** [df[coluna] > limite], on one cell. *)
Definition maior (c : Derivada) (limite : Z) : bool :=
  match c with
  | Valor z => z >? limite
  | _ => false
  end.

Definition dias (l : Linha) : Z :=
  match dias_desde_ultima_compra l with
  | Valor z => z
  | _ => 0
  end.

Definition estoque_parado (df_filtrado : DataFrame) (limite_dias_compra : Z) : DataFrame :=
  sort_values_desc dias
    (filter (fun l => maior (dias_desde_ultima_compra l) limite_dias_compra
                      && (quantidade_fisica l >? 0))
            df_filtrado).

Definition produtos_criticos (df_filtrado : DataFrame) (min_disponivel : Z) : DataFrame :=
  sort_values_desc quantidade_solicitada
    (filter (fun l => (quantidade_disponivel l <? min_disponivel)
                      && (quantidade_solicitada l >? 0))
            df_filtrado).

Definition df_desempenho_fabricante (df_filtrado : DataFrame) : list LinhaDesempenho :=
  map (fun g =>
         mkDesempenho (fst g)
           (soma (map quantidade_fisica (snd g)))
           (soma (map quantidade_avariada (snd g)))
           (soma (map quantidade_disponivel (snd g)))
           (soma (map quantidade_solicitada (snd g)))
           (nunique (map produto (snd g))))
      (groupby fabricante df_filtrado).

(** ** The script: table objects, variables and the page

    The tables the script assigns to in place ([df_estoque], [df_filtrado],
    [df_avariado]) are objects of a store, and the Python variables hold
    references to them; the other tables are never changed once built and
    are plain values.  [tela] is what has been written on the page. *)

Record Mundo := mkMundo {
  objetos : list DataFrame;
  tela : list Elemento
}.

Inductive Excecao :=
| ReferenciaInvalida
| KeyError.

Inductive Resultado (A : Type) :=
| Normal (a : A) (m : Mundo)
| Levanta (e : Excecao).

Arguments Normal {A} a m.
Arguments Levanta {A} e.

Definition Script (A : Type) : Type := Mundo -> Resultado A.

Definition ret {A : Type} (a : A) : Script A := fun m => Normal a m.

Definition bind {A B : Type} (c : Script A) (k : A -> Script B) : Script B :=
  fun m =>
    match c m with
    | Normal a m' => k a m'
    | Levanta e => Levanta e
    end.

Notation "x <- c ;; k" := (bind c (fun x => k))
  (at level 61, c at next level, right associativity).
Notation "c ;; k" := (bind c (fun _ => k))
  (at level 61, right associativity).

Definition levantar {A : Type} (e : Excecao) : Script A := fun _ => Levanta e.

(** A fresh object: [.copy()] and boolean indexing. *)
Definition novo (df : DataFrame) : Script nat :=
  fun m => Normal (List.length (objetos m)) (mkMundo (objetos m ++ [df]) (tela m)).

Definition conteudo (r : nat) : Script DataFrame :=
  fun m =>
    match nth_error (objetos m) r with
    | Some df => Normal df m
    | None => Levanta ReferenciaInvalida
    end.

Fixpoint trocar {A : Type} (i : nat) (x : A) (l : list A) : list A :=
  match l, i with
  | [], _ => []
  | _ :: t, O => x :: t
  | y :: t, S j => y :: trocar j x t
  end.

(** A change in place: the object behind [r] is rewritten, and whoever
    holds [r] sees it. *)
Definition alterar (r : nat) (f : DataFrame -> DataFrame) : Script unit :=
  fun m =>
    match nth_error (objetos m) r with
    | Some df => Normal tt (mkMundo (trocar r (f df) (objetos m)) (tela m))
    | None => Levanta ReferenciaInvalida
    end.

Definition mostrar (e : Elemento) : Script unit :=
  fun m => Normal tt (mkMundo (objetos m) (tela m ++ [e])).

Definition mostrar_todos (es : list Elemento) : Script unit :=
  fun m => Normal tt (mkMundo (objetos m) (tela m ++ es)).

(** The values the widgets hand to the script, and today's date.  The
    widgets themselves (their ranges and defaults) are Streamlit's and are
    not modelled; the selectors' option lists are [todos_anos] and
    [todos_meses].  A widget that rejects its arguments (a default above
    the maximum it is given) stops the script where it is called: a run of
    this model is a run in which every widget returned a value. *)
Record Entradas := mkEntradas {
  ano_filtro : FiltroAno;
  mes_filtro : string;
  limite_disponibilidade : Z;
  limite_dias_compra : Z;
  min_disponivel : Z;
  hoje : Timestamp
}.

(** Lines 87 to 100: [df_filtrado] ends up bound to a fresh object. *)
Definition filtrar (df_estoque : nat) (ano : FiltroAno) (mes : string) : Script nat :=
  d <- conteudo df_estoque ;;
  df_filtrado <- novo d ;;
  df_filtrado <-
    match ano with
    | Todos => ret df_filtrado
    | Ano y =>
        d <- conteudo df_filtrado ;;
        novo (filter (fun l => igual (ano_compra l) y) d)
    end ;;
  if String.eqb mes "Todos" then ret df_filtrado
  else
    match num_mes_selecionado MESES_ABREVIADOS mes with
    | Some num =>
        d <- conteudo df_filtrado ;;
        novo (filter (fun l => igual (mes_compra l) num) d)
    | None => ret df_filtrado
    end.

(** Lines 110 to 116. *)
Definition visao_geral (df_filtrado : nat) : Script unit :=
  d <- conteudo df_filtrado ;;
  mostrar (st_metric_produtos (total_produtos d)) ;;
  mostrar (st_metric_itens (total_itens_fisicos d)) ;;
  mostrar (st_metric_valor (valor_total_estoque d)).

(** Lines 119 to 130. *)
Definition top_fabricantes (df_filtrado : nat) : Script unit :=
  d <- conteudo df_filtrado ;;
  if negb (empty d) then mostrar (grafico_top_10 (df_top_10_fabricantes d))
  else mostrar (st_info NenhumDado).

(** Lines 139 to 176. *)
Definition disponibilidade (df_filtrado : nat) (limite : Z) : Script unit :=
  d <- conteudo df_filtrado ;;
  if negb (empty d) then
    let resumo := df_resumo_quantidades d in
    (if negb (empty resumo) then mostrar (tabela_resumo resumo)
     else mostrar (st_info NenhumDadoComparativo)) ;;
    let baixa := produtos_baixa_disponibilidade d limite in
    if negb (empty baixa) then
      mostrar (tabela ["produto"; "fabricante"; "quantidade fisica";
                       "quantidade solicitada"; "quantidade reservada";
                       "quantidade disponivel"] baixa)
    else mostrar (st_info NenhumProdutoBaixaDisponibilidade)
  else mostrar (st_info NenhumDado).

(** Lines 184 to 195: [df_avariado] is a copy, changed in place twice. *)
Definition avarias (df_filtrado : nat) : Script unit :=
  d <- conteudo df_filtrado ;;
  if negb (empty d) then
    avariado <- novo (df_avariado d) ;;
    a <- conteudo avariado ;;
    if negb (empty a) then
      alterar avariado atribuir_porcentagem ;;
      alterar avariado fillna ;;
      a <- conteudo avariado ;;
      mostrar (tabela ["produto"; "fabricante"; "quantidade fisica";
                       "quantidade avariada"; "porcentagem_avaria"]
                 (sort_values_desc quantidade_avariada a))
    else mostrar (st_info NenhumItemAvariado)
  else mostrar (st_info NenhumDado).

(** Lines 203 to 222: the new column goes into [df_filtrado] itself. *)
Definition parado (df_filtrado : nat) (hoje_ : Timestamp) (limite : Z) : Script unit :=
  d <- conteudo df_filtrado ;;
  if negb (empty d) then
    alterar df_filtrado (atribuir_dias hoje_) ;;
    d <- conteudo df_filtrado ;;
    let parados := estoque_parado d limite in
    if negb (empty parados) then
      mostrar (tabela ["produto"; "fabricante"; "quantidade fisica";
                       "data ultima compra"; "dias_desde_ultima_compra"] parados)
    else mostrar (st_info NenhumEstoqueParado)
  else mostrar (st_info NenhumDado).

(** Lines 231 to 257. *)
Definition criticos (df_filtrado : nat) (limite : Z) : Script unit :=
  d <- conteudo df_filtrado ;;
  if negb (empty d) then
    let cs := produtos_criticos d limite in
    if negb (empty cs) then
      mostrar (tabela ["produto"; "fabricante"; "quantidade fisica";
                       "quantidade solicitada"; "quantidade disponivel"] cs) ;;
      mostrar (grafico_criticos cs)
    else mostrar (st_info NenhumProdutoCritico)
  else mostrar (st_info NenhumDado).

(** Lines 265 to 279. *)
Definition desempenho (df_filtrado : nat) : Script unit :=
  d <- conteudo df_filtrado ;;
  if negb (empty d) then
    mostrar (tabela_desempenho
               (sort_values_desc total_quantidade_fisica (df_desempenho_fabricante d)))
  else mostrar (st_info NenhumDado).

(** Everything below the filters, in page order. *)
Definition secoes (df_filtrado : nat) (e : Entradas) : Script unit :=
  visao_geral df_filtrado ;;
  top_fabricantes df_filtrado ;;
  disponibilidade df_filtrado (limite_disponibilidade e) ;;
  avarias df_filtrado ;;
  parado df_filtrado (hoje e) (limite_dias_compra e) ;;
  criticos df_filtrado (min_disponivel e) ;;
  desempenho df_filtrado.

(** The whole script.  The month selector is built even though its value
    is an input here: building it looks every month up in
    [MESES_ABREVIADOS]. *)
Definition painel (arquivo : Leitura) (e : Entradas) : Script unit :=
  let (df, avisos) := carregar_dados arquivo in
  mostrar_todos avisos ;;
  match df with
  | None => mostrar (st_info CarregueUmArquivo)
  | Some df =>
      df_estoque <- novo df ;;
      alterar df_estoque extrair_ano_mes ;;
      d <- conteudo df_estoque ;;
      match todos_meses d (ano_filtro e) with
      | None => levantar KeyError
      | Some _ =>
          df_filtrado <- filtrar df_estoque (ano_filtro e) (mes_filtro e) ;;
          secoes df_filtrado e
      end
  end.

End Painel.

Arguments Normal {calendario A} a m.
Arguments Levanta {calendario A} e.

(** ** Number formatting: [formatar_moeda] and the item total of line 115 *)

(** [s.replace(old, new)] where [old] and [new] are one character each, as
    in every call of the script. *)
Fixpoint replace (old new : ascii) (s : string) : string :=
  match s with
  | EmptyString => EmptyString
  | String c r => String (if Ascii.eqb c old then new else c) (replace old new r)
  end.

(** The decimal digits of a natural number. *)
Definition digitos (n : Z) : string :=
  NilZero.string_of_uint (N.to_uint (Z.to_N n)).

(** The thousands separator of Python's format: [sep] between groups of
    three digits, counted from the right. [agrupar_rev] works on the
    digits from the right, [n] of them already in the current group. *)
Fixpoint agrupar_rev (sep : ascii) (n : nat) (l : list ascii) : list ascii :=
  match l with
  | [] => []
  | c :: r =>
      match r with
      | [] => [c]
      | _ :: _ =>
          if (n =? 2)%nat then c :: sep :: agrupar_rev sep 0 r
          else c :: agrupar_rev sep (S n) r
      end
  end.

Definition agrupar (sep : ascii) (s : string) : string :=
  string_of_list_ascii (rev (agrupar_rev sep 0 (rev (list_ascii_of_string s)))).

(** A non-negative rational rounded to the nearest integer, halves to the
    even one. *)
Definition arredondar (q : Q) : Z :=
  let n := Qnum q in
  let d := Z.pos (Qden q) in
  let baixo := n / d in
  let resto := n mod d in
  if 2 * resto <? d then baixo
  else if d <? 2 * resto then baixo + 1
  else if Z.even baixo then baixo
  else baixo + 1.

Definition digito_de (n : Z) : ascii := ascii_of_N (Z.to_N (48 + n)).

Definition dois_digitos (c : Z) : string :=
  String (digito_de (c / 10)) (String (digito_de (c mod 10)) EmptyString).

(** A number with two decimals: sign, grouped integer part, decimal mark,
    the hundredths. With [","] and ["."] it is Python's [{:,.2f}]. *)
Definition formato_f2 (milhar decimal : ascii) (q : Q) : string :=
  let c := arredondar (Qabs q * 100) in
  (if Qnum q <? 0 then "-" else "")
  ++ agrupar milhar (digitos (c / 100))
  ++ String decimal (dois_digitos (c mod 100)).

(** [f'{x:,.2f}'] of a float. *)
Definition format_2f (x : float64) : string :=
  match x with
  | f_num q => formato_f2 "," "." q
  | f_inf => "inf"
  | f_neg_inf => "-inf"
  | f_nan => "nan"
  end.

(** [f'{n:,.0f}'] of an integer (exact up to 2^53, where the conversion to
    float starts to round). *)
Definition format_0f (n : Z) : string :=
  (if n <? 0 then "-" else "") ++ agrupar "," (digitos (Z.abs n)).

(** What [formatar_moeda] may be handed: a float, a null ([None], NaT) or
    another scalar such as a string. *)
Inductive Objeto :=
| Numero (x : float64)
| Nulo
| Outro.

(** [pd.isna(valor)] *)
Definition isna (valor : Objeto) : bool :=
  match valor with
  | Numero f_nan => true
  | Nulo => true
  | _ => false
  end.

(** Lines 37 to 43. A scalar that is not a number makes the format raise,
    which the function catches. *)
Definition formatar_moeda (valor : Objeto) (simbolo_moeda : string) : string :=
  if isna valor then ""
  else
    match valor with
    | Numero x =>
        replace "x" "." (replace "." "," (replace "," "x"
          (simbolo_moeda ++ " " ++ format_2f x)))
    | _ => "Valor inválido"
    end.

(** Line 115: the text of the metric "Total de Itens Físicos". *)
Definition texto_itens (total_itens_fisicos : Z) : string :=
  replace "X" "." (replace "." "," (replace "," "X" (format_0f total_itens_fisicos))).

(** ** Instances to run the model on examples *)

(** A calendar that reads [YYYY-MM-DD] and nothing else, cell by cell. *)
Definition digito (c : ascii) : option Z :=
  let n := Z.of_N (N_of_ascii c) in
  if (48 <=? n) && (n <=? 57) then Some (n - 48) else None.

Fixpoint numero (acc : Z) (cs : list ascii) : option Z :=
  match cs with
  | [] => Some acc
  | c :: r =>
      match digito c with
      | Some d => numero (10 * acc + d) r
      | None => None
      end
  end.

Definition data_iso (s : string) : option (Z * Z * Z) :=
  match list_ascii_of_string s with
  | [y1; y2; y3; y4; h1; m1; m2; h2; d1; d2] =>
      if Ascii.eqb h1 "-" && Ascii.eqb h2 "-" then
        match numero 0 [y1; y2; y3; y4], numero 0 [m1; m2], numero 0 [d1; d2] with
        | Some y, Some m, Some d =>
            if (1 <=? m) && (m <=? 12) && (1 <=? d) && (d <=? 31)
            then Some (y, m, d) else None
        | _, _, _ => None
        end
      else None
  | _ => None
  end.

(** Days since 1970-01-01 of a civil date. *)
Definition dia_civil (t : Z * Z * Z) : Z :=
  let '(y, m, d) := t in
  let y' := if m <=? 2 then y - 1 else y in
  let era := y' / 400 in
  let yoe := y' - era * 400 in
  let doy := (153 * (if m >? 2 then m - 3 else m + 9) + 2) / 5 + d - 1 in
  let doe := yoe * 365 + yoe / 4 - yoe / 100 + doy in
  era * 146097 + doe - 719468.

Definition to_datetime_iso (coluna : list (option string)) : list (option (Z * Z * Z)) :=
  map (fun c => match c with Some s => data_iso s | None => None end) coluna.

Lemma to_datetime_iso_length (coluna : list (option string)) :
  List.length (to_datetime_iso coluna) = List.length coluna.
Proof. unfold to_datetime_iso. apply length_map. Qed.

Definition calendario_iso : Calendario := {|
  Timestamp := Z * Z * Z;
  to_datetime := to_datetime_iso;
  to_datetime_length := to_datetime_iso_length;
  dt_year := fun t => fst (fst t);
  dt_month := fun t => snd (fst t);
  dt_days := fun a b => dia_civil a - dia_civil b
|}.

(** ** Insertion sort: a permutation, and sorted *)

Section Insercao.

Context {A : Type} (antes : A -> A -> bool).

Lemma inserir_perm (x : A) (l : list A) :
  Permutation (inserir antes x l) (x :: l).
Proof.
  induction l as [|y t IH]; simpl.
  - apply Permutation_refl.
  - destruct (antes x y).
    + apply Permutation_refl.
    + eapply perm_trans; [apply perm_skip, IH | apply perm_swap].
Qed.

Lemma ordenar_perm (l : list A) : Permutation (ordenar antes l) l.
Proof.
  induction l as [|x t IH]; simpl.
  - apply perm_nil.
  - eapply perm_trans; [apply inserir_perm | apply perm_skip, IH].
Qed.

Hypothesis antes_total : forall a b, antes a b = false -> antes b a = true.
Hypothesis antes_trans :
  forall a b c, antes a b = true -> antes b c = true -> antes a c = true.

Lemma inserir_sorted (x : A) (l : list A) :
  StronglySorted (fun a b => antes a b = true) l ->
  StronglySorted (fun a b => antes a b = true) (inserir antes x l).
Proof.
  induction 1 as [|y t Hs IH Hall]; simpl.
  - repeat constructor.
  - destruct (antes x y) eqn:E.
    + constructor; [constructor; assumption|].
      constructor; [assumption|].
      eapply Forall_impl; [|exact Hall].
      intros z Hz. simpl in Hz. eapply antes_trans; eassumption.
    + constructor; [exact IH|].
      eapply Permutation_Forall; [apply Permutation_sym, inserir_perm|].
      constructor; [apply antes_total, E | exact Hall].
Qed.

Lemma ordenar_sorted (l : list A) :
  StronglySorted (fun a b => antes a b = true) (ordenar antes l).
Proof.
  induction l as [|x t IH]; simpl.
  - constructor.
  - apply inserir_sorted, IH.
Qed.

End Insercao.

(** The order of the group keys: strings compared character by character. *)
Lemma ascii_compare_trans (c : comparison) (a b d : ascii) :
  Ascii.compare a b = c -> Ascii.compare b d = c -> Ascii.compare a d = c.
Proof.
  unfold Ascii.compare. destruct c; intros H1 H2.
  - apply N.compare_eq_iff in H1. apply N.compare_eq_iff in H2.
    apply N.compare_eq_iff. congruence.
  - apply N.compare_lt_iff in H1. apply N.compare_lt_iff in H2.
    apply N.compare_lt_iff. eapply N.lt_trans; eassumption.
  - apply N.compare_gt_iff in H1. apply N.compare_gt_iff in H2.
    apply N.compare_gt_iff. eapply N.lt_trans; eassumption.
Qed.

Lemma string_compare_lt_trans (s1 s2 s3 : string) :
  String.compare s1 s2 = Lt -> String.compare s2 s3 = Lt -> String.compare s1 s3 = Lt.
Proof.
  revert s2 s3. induction s1 as [|a s1 IH]; intros [|b s2] [|d s3]; simpl;
    try discriminate; try reflexivity.
  destruct (Ascii.compare a b) eqn:Eab; try discriminate;
    destruct (Ascii.compare b d) eqn:Ebd; try discriminate; intros H1 H2.
  - rewrite (ascii_compare_trans Eq a b d Eab Ebd). eapply IH; eassumption.
  - apply Ascii.compare_eq_iff in Eab. subst. rewrite Ebd. reflexivity.
  - apply Ascii.compare_eq_iff in Ebd. subst. rewrite Eab. reflexivity.
  - rewrite (ascii_compare_trans Lt a b d Eab Ebd). reflexivity.
Qed.

Lemma string_leb_trans (s1 s2 s3 : string) :
  String.leb s1 s2 = true -> String.leb s2 s3 = true -> String.leb s1 s3 = true.
Proof.
  unfold String.leb. intros H1 H2.
  destruct (String.compare s1 s2) eqn:E12; try discriminate;
    destruct (String.compare s2 s3) eqn:E23; try discriminate.
  - apply String.compare_eq_iff in E12. subst. rewrite E23. reflexivity.
  - apply String.compare_eq_iff in E12. subst. rewrite E23. reflexivity.
  - apply String.compare_eq_iff in E23. subst. rewrite E12. reflexivity.
  - rewrite (string_compare_lt_trans _ _ _ E12 E23). reflexivity.
Qed.

Lemma string_leb_total (s1 s2 : string) :
  String.leb s1 s2 = false -> String.leb s2 s1 = true.
Proof.
  intros H. destruct (String.leb_total s1 s2) as [E|E]; congruence.
Qed.

Lemma StronglySorted_impl {A : Type} (R S : A -> A -> Prop) (l : list A) :
  (forall a b, R a b -> S a b) -> StronglySorted R l -> StronglySorted S l.
Proof.
  intros HRS. induction 1 as [|x t Hs IH Hall]; constructor.
  - exact IH.
  - eapply Forall_impl; [|exact Hall]. intros z; apply HRS.
Qed.

(** A stable descending sort: equal keys keep their order. It is what
    pandas' reverse, stable argsort, reverse comes to. *)
Definition sort_estavel_desc {A : Type} (chave : A -> Z) (l : list A) : list A :=
  ordenar (fun x y => chave y <=? chave x) l.

Lemma sort_estavel_desc_perm (A : Type) (chave : A -> Z) (l : list A) :
  Permutation (sort_estavel_desc chave l) l.
Proof. apply ordenar_perm. Qed.

Lemma sort_estavel_desc_sorted (A : Type) (chave : A -> Z) (l : list A) :
  StronglySorted (fun x y => chave y <= chave x) (sort_estavel_desc chave l).
Proof.
  unfold sort_estavel_desc.
  apply StronglySorted_impl with (R := fun x y => (chave y <=? chave x) = true).
  - intros a b H. apply Z.leb_le, H.
  - apply ordenar_sorted.
    + intros a b H. apply Z.leb_gt in H. apply Z.leb_le. lia.
    + intros a b c H1 H2. apply Z.leb_le in H1, H2. apply Z.leb_le. lia.
Qed.

Definition ordenacao_estavel : Ordenacao := {|
  sort_values_desc := @sort_estavel_desc;
  sort_values_perm := sort_estavel_desc_perm;
  sort_values_sorted := sort_estavel_desc_sorted
|}.

(** ** Properties *)

Section Propriedades.

Context {calendario : Calendario} {ordenacao : Ordenacao}.

(** *** Loader *)

Definition tem_data (l : Linha) : Prop :=
  exists t, data_ultima_compra l = Momento t.

(** A converted cell: a timestamp or NaT, never text. *)
Definition convertida (c : CelulaData) : Prop :=
  c = NaT \/ exists t, c = Momento t.

Lemma converter_celula_convertida (c : CelulaData) (r : option Timestamp) :
  convertida (converter_celula c r).
Proof.
  destruct c as [s|t|]; simpl.
  - destruct r as [t|]; [right; eexists; reflexivity | left; reflexivity].
  - right; eexists; reflexivity.
  - left; reflexivity.
Qed.

Lemma converter_linhas_aux (df : DataFrame) (rs : list (option Timestamp)) :
  List.length rs = List.length df ->
  Forall2 (fun l l' => exists c, l' = com_data l c /\ convertida c) df
    (map (fun lr => com_data (fst lr)
                      (converter_celula (data_ultima_compra (fst lr)) (snd lr)))
         (combine df rs)).
Proof.
  revert rs. induction df as [|l df IH]; intros [|r rs] Hlen; simpl in *;
    try discriminate; constructor.
  - eexists; split; [reflexivity | apply converter_celula_convertida].
  - apply IH. lia.
Qed.




(** Conversion keeps the table row for row: only the date cell changes. *)
Lemma converter_datas_linhas (df : DataFrame) :
  Forall2 (fun l l' => exists c, l' = com_data l c /\ convertida c)
    df (converter_datas df).
Proof.
  unfold converter_datas. apply converter_linhas_aux.
  rewrite to_datetime_length. apply length_map.
Qed.

Lemma converter_datas_convertidas (df : DataFrame) :
  Forall (fun l => convertida (data_ultima_compra l)) (converter_datas df).
Proof.
  pose proof (converter_datas_linhas df) as H.
  induction H as [|l l' df df' [c [-> Hc]] _ IH]; constructor; auto.
Qed.

Lemma dropna_tem_data (df : DataFrame) :
  Forall (fun l => convertida (data_ultima_compra l)) df ->
  Forall tem_data (dropna df).
Proof.
  unfold dropna. induction 1 as [|l df Hl _ IH]; simpl; [constructor|].
  destruct Hl as [Hl | [t Hl]]; rewrite Hl; simpl; [exact IH|].
  constructor; [exists t; exact Hl | exact IH].
Qed.


(** *** Filter *)

Lemma num_mes_selecionado_desconhecido (itens : list (Z * string)) (mes : string) :
  ~ In mes (map snd itens) -> num_mes_selecionado itens mes = None.
Proof.
  induction itens as [|[num abbrev] resto IH]; simpl; intros H; [reflexivity|].
  destruct (String.eqb_spec abbrev mes) as [E|E].
  - exfalso. apply H. left. exact E.
  - apply IH. intros Hin. apply H. right. exact Hin.
Qed.

(** Every table that was in the store is still there, unchanged. *)
Definition intactos (m m' : Mundo) : Prop :=
  forall i, (i < List.length (objetos m))%nat ->
            nth_error (objetos m') i = nth_error (objetos m) i.

Lemma nth_error_novo (os : list DataFrame) (df : DataFrame) :
  nth_error (os ++ [df]) (List.length os) = Some df.
Proof. rewrite nth_error_app2 by lia. rewrite Nat.sub_diag. reflexivity. Qed.

Lemma novo_ok (df : DataFrame) (m : Mundo) :
  novo df m = Normal (List.length (objetos m)) (mkMundo (objetos m ++ [df]) (tela m)).
Proof. reflexivity. Qed.

Lemma conteudo_ok (r : nat) (df : DataFrame) (m : Mundo) :
  nth_error (objetos m) r = Some df -> conteudo r m = Normal df m.
Proof. intros H. unfold conteudo. rewrite H. reflexivity. Qed.

Lemma intactos_app (os : list DataFrame) (t t' : list Elemento) (novos : list DataFrame) :
  intactos (mkMundo os t) (mkMundo (os ++ novos) t').
Proof. intros i Hi. simpl in *. apply nth_error_app1, Hi. Qed.

(** The object [df_filtrado] ends up bound to holds [aplicar_filtros] of
    the rows of [df_estoque]; it is a fresh object, and the objects that
    were there are as they were. *)
Lemma filtrar_aplicar_filtros (m : Mundo) (df_estoque : nat) (df : DataFrame)
    (ano : FiltroAno) (mes : string) :
  nth_error (objetos m) df_estoque = Some df ->
  exists df_filtrado novos,
    filtrar df_estoque ano mes m
    = Normal df_filtrado (mkMundo (objetos m ++ novos) (tela m)) /\
    (List.length (objetos m) <= df_filtrado)%nat /\
    nth_error (objetos m ++ novos) df_filtrado = Some (aplicar_filtros df ano mes).
Proof.
  intros H. set (os := objetos m) in *.
  unfold filtrar, aplicar_filtros, bind.
  rewrite (conteudo_ok _ _ _ H). rewrite novo_ok. fold os.
  destruct ano as [|y].
  - unfold ret. destruct (String.eqb mes "Todos").
    + exists (List.length os), [df]. split; [reflexivity|]. split; [lia|].
      apply nth_error_novo.
    + destruct (num_mes_selecionado MESES_ABREVIADOS mes) as [num|].
      * unfold conteudo. simpl objetos. rewrite nth_error_novo. rewrite novo_ok.
        simpl objetos. simpl tela.
        exists (List.length (os ++ [df])),
               [df; filter (fun l => igual (mes_compra l) num) df].
        split. { rewrite <- app_assoc. reflexivity. }
        split; [rewrite length_app; simpl; lia|].
        replace (os ++ [df; filter (fun l => igual (mes_compra l) num) df])
          with ((os ++ [df]) ++ [filter (fun l => igual (mes_compra l) num) df])
          by (rewrite <- app_assoc; reflexivity).
        apply nth_error_novo.
      * exists (List.length os), [df]. split; [reflexivity|]. split; [lia|].
        apply nth_error_novo.
  - unfold conteudo at 1. simpl objetos. rewrite nth_error_novo. rewrite novo_ok.
    simpl objetos. simpl tela. unfold ret.
    set (da := filter (fun l => igual (ano_compra l) y) df : DataFrame).
    destruct (String.eqb mes "Todos").
    + exists (List.length (os ++ [df])), [df; da]. split.
      { rewrite <- app_assoc. reflexivity. }
      split; [rewrite length_app; simpl; lia|].
      replace (os ++ [df; da]) with ((os ++ [df]) ++ [da])
        by (rewrite <- app_assoc; reflexivity).
      apply nth_error_novo.
    + destruct (num_mes_selecionado MESES_ABREVIADOS mes) as [num|].
      * unfold conteudo. simpl objetos. rewrite nth_error_novo. rewrite novo_ok.
        simpl objetos. simpl tela.
        exists (List.length ((os ++ [df]) ++ [da])),
               [df; da; filter (fun l => igual (mes_compra l) num) da].
        split. { rewrite <- !app_assoc. reflexivity. }
        split; [rewrite !length_app; simpl; lia|].
        replace (os ++ [df; da; filter (fun l => igual (mes_compra l) num) da])
          with (((os ++ [df]) ++ [da]) ++ [filter (fun l => igual (mes_compra l) num) da])
          by (rewrite <- !app_assoc; reflexivity).
        apply nth_error_novo.
      * exists (List.length (os ++ [df])), [df; da]. split.
        { rewrite <- app_assoc. reflexivity. }
        split; [rewrite length_app; simpl; lia|].
        replace (os ++ [df; da]) with ((os ++ [df]) ++ [da])
          by (rewrite <- app_assoc; reflexivity).
        apply nth_error_novo.
Qed.

(** C7. With both selectors on ['Todos'] the filter is the identity:
    neither condition applies, and [df_filtrado] is bound to a copy of
    [df_estoque] that holds the same rows in the same order. *)
Theorem aplicar_filtros_todos (m : Mundo) (df_estoque : nat) (df : DataFrame) :
  nth_error (objetos m) df_estoque = Some df ->
  aplicar_filtros df Todos "Todos" = df /\
  filtrar df_estoque Todos "Todos" m
  = Normal (List.length (objetos m)) (mkMundo (objetos m ++ [df]) (tela m)) /\
  nth_error (objetos m ++ [df]) (List.length (objetos m)) = Some df /\
  nth_error (objetos m ++ [df]) df_estoque = Some df.
Proof.
  intros H. split; [reflexivity|]. split.
  - unfold filtrar, bind. rewrite (conteudo_ok _ _ _ H). reflexivity.
  - split; [apply nth_error_novo|].
    rewrite nth_error_app1 by (apply nth_error_Some; congruence). exact H.
Qed.

(** With the year on ['Todos'] the month selector offers ['Todos'] alone. *)
Lemma todos_meses_sem_ano (df_estoque : DataFrame) :
  todos_meses df_estoque Todos = Some ["Todos"].
Proof. reflexivity. Qed.

(** C10. A month label that is neither ['Todos'] nor one of the twelve
    abbreviations puts no constraint on the month: the result is the table
    filtered by year, as with the month on ['Todos']. *)
Theorem mes_desconhecido_nao_filtra (df_estoque : DataFrame) (y : Z) (mes : string) :
  mes <> "Todos" ->
  ~ In mes (map snd MESES_ABREVIADOS) ->
  aplicar_filtros df_estoque (Ano y) mes
  = filter (fun l => igual (ano_compra l) y) df_estoque /\
  aplicar_filtros df_estoque (Ano y) mes = aplicar_filtros df_estoque (Ano y) "Todos".
Proof.
  intros Hnt Hdesc. unfold aplicar_filtros.
  rewrite (num_mes_selecionado_desconhecido _ _ Hdesc).
  destruct (String.eqb_spec mes "Todos") as [E|_]; [contradiction|].
  split; reflexivity.
Qed.

(** *** Filter-and-sort sections *)

Lemma sort_values_desc_In {A : Type} (chave : A -> Z) (l : list A) (x : A) :
  In x (sort_values_desc chave l) <-> In x l.
Proof.
  split; apply Permutation_in;
    [apply sort_values_perm | apply Permutation_sym, sort_values_perm].
Qed.

Lemma sort_values_desc_um {A : Type} (chave : A -> Z) (x : A) :
  sort_values_desc chave [x] = [x].
Proof.
  apply Permutation_length_1_inv, Permutation_sym, sort_values_perm.
Qed.

(** C8. The low-availability table holds exactly the rows of the filtered
    table with [0 <= quantidade disponivel < limite] (so none with a
    negative availability), each as often as it is there, in descending
    order of [quantidade solicitada]; this for every limit. *)
Theorem baixa_disponibilidade_correta (df_filtrado : DataFrame) (limite : Z) :
  Permutation (produtos_baixa_disponibilidade df_filtrado limite)
    (filter (fun l => (0 <=? quantidade_disponivel l)
                      && (quantidade_disponivel l <? limite)) df_filtrado) /\
  (forall l, In l (produtos_baixa_disponibilidade df_filtrado limite) <->
             In l df_filtrado /\ 0 <= quantidade_disponivel l < limite) /\
  Forall (fun l => ~ quantidade_disponivel l < 0)
    (produtos_baixa_disponibilidade df_filtrado limite) /\
  StronglySorted (fun a b => quantidade_solicitada b <= quantidade_solicitada a)
    (produtos_baixa_disponibilidade df_filtrado limite).
Proof.
  unfold produtos_baixa_disponibilidade.
  assert (Hin : forall l,
             In l (sort_values_desc quantidade_solicitada
                     (filter (fun l => (quantidade_disponivel l <? limite)
                                       && (quantidade_disponivel l >=? 0)) df_filtrado)) <->
             In l df_filtrado /\ 0 <= quantidade_disponivel l < limite).
  { intros l. rewrite sort_values_desc_In, filter_In, andb_true_iff, Z.ltb_lt, Z.geb_le.
    intuition lia. }
  split.
  { eapply perm_trans; [apply sort_values_perm|].
    erewrite filter_ext; [apply Permutation_refl|].
    intros l. simpl. rewrite Z.geb_leb. apply andb_comm. }
  split; [exact Hin|].
  split; [|apply sort_values_sorted].
  apply Forall_forall. intros l Hl. apply Hin in Hl. lia.
Qed.

(** C9. The critical-products table holds exactly the rows of the filtered
    table with [quantidade disponivel < limite] and
    [quantidade solicitada > 0], each as often as it is there, in
    descending order of [quantidade solicitada]; with limit 10, of a row
    with availability 5 and demand 20 and a row with availability 60 and
    demand 0 only the first is kept. *)
Theorem produtos_criticos_corretos (df_filtrado : DataFrame) (limite : Z) :
  Permutation (produtos_criticos df_filtrado limite)
    (filter (fun l => (quantidade_disponivel l <? limite)
                      && (0 <? quantidade_solicitada l)) df_filtrado) /\
  (forall l, In l (produtos_criticos df_filtrado limite) <->
             In l df_filtrado /\ quantidade_disponivel l < limite
             /\ quantidade_solicitada l > 0) /\
  StronglySorted (fun a b => quantidade_solicitada b <= quantidade_solicitada a)
    (produtos_criticos df_filtrado limite) /\
  (forall a b,
     quantidade_disponivel a = 5 -> quantidade_solicitada a = 20 ->
     quantidade_disponivel b = 60 -> quantidade_solicitada b = 0 ->
     produtos_criticos [a; b] 10 = [a]).
Proof.
  unfold produtos_criticos.
  split.
  { eapply perm_trans; [apply sort_values_perm|].
    erewrite filter_ext; [apply Permutation_refl|].
    intros l. simpl. rewrite Z.gtb_ltb. reflexivity. }
  split.
  { intros l. rewrite sort_values_desc_In, filter_In, andb_true_iff, Z.ltb_lt, Z.gtb_lt.
    intuition lia. }
  split; [apply sort_values_sorted|].
  intros a b Ha1 Ha2 Hb1 Hb2. simpl. rewrite Ha1, Ha2, Hb1, Hb2. simpl.
  apply sort_values_desc_um.
Qed.

(** *** Grouping and the top manufacturers *)

Section Unicos.

Context {A : Type} (eqb : A -> A -> bool).
Hypothesis eqb_eq : forall a b, eqb a b = true <-> a = b.

Lemma unique_In (l : list A) (x : A) : In x (unique eqb l) <-> In x l.
Proof.
  induction l as [|y t IH]; simpl; [tauto|].
  rewrite filter_In, IH, negb_true_iff.
  destruct (eqb x y) eqn:E.
  - apply eqb_eq in E. subst. split; intros _; left; reflexivity.
  - split.
    + intros [H | [H _]]; [left | right]; assumption.
    + intros [H | H]; [left; assumption | right; split; [assumption | reflexivity]].
Qed.

Lemma unique_NoDup (l : list A) : NoDup (unique eqb l).
Proof.
  induction l as [|y t IH]; simpl; constructor.
  - rewrite filter_In, negb_true_iff. intros [_ H].
    assert (E : eqb y y = true) by (apply eqb_eq; reflexivity). congruence.
  - apply NoDup_filter, IH.
Qed.

End Unicos.

Definition chaves (coluna : Linha -> string) (df : DataFrame) : list string :=
  ordenar String.leb (unique String.eqb (map coluna df)).

Lemma chaves_In (coluna : Linha -> string) (df : DataFrame) (k : string) :
  In k (chaves coluna df) <-> In k (map coluna df).
Proof.
  unfold chaves. split; intros H.
  - apply (unique_In String.eqb String.eqb_eq).
    eapply Permutation_in; [apply ordenar_perm | exact H].
  - eapply Permutation_in; [apply Permutation_sym, ordenar_perm|].
    apply (unique_In String.eqb String.eqb_eq), H.
Qed.

Lemma chaves_NoDup (coluna : Linha -> string) (df : DataFrame) :
  NoDup (chaves coluna df).
Proof.
  unfold chaves. eapply Permutation_NoDup.
  - apply Permutation_sym, ordenar_perm.
  - apply unique_NoDup, String.eqb_eq.
Qed.

(** The sum a manufacturer's rows come to, as the int64 sum that pandas
    computes. *)
Definition total_do_fabricante (df : DataFrame) (f : string) : Z :=
  soma (map quantidade_fisica (filter (fun l => String.eqb (fabricante l) f) df)).

Lemma df_agrupado_fabricante_por_chave (df : DataFrame) :
  df_agrupado_fabricante df
  = map (fun k => (k, total_do_fabricante df k)) (chaves fabricante df).
Proof.
  unfold df_agrupado_fabricante, groupby, chaves. rewrite map_map. reflexivity.
Qed.

Lemma df_agrupado_fabricante_fst (df : DataFrame) :
  map fst (df_agrupado_fabricante df) = chaves fabricante df.
Proof.
  rewrite df_agrupado_fabricante_por_chave, map_map. simpl. apply map_id.
Qed.

Lemma StronglySorted_app_inv {A : Type} (R : A -> A -> Prop) (l1 l2 : list A) :
  StronglySorted R (l1 ++ l2) ->
  StronglySorted R l1 /\ Forall (fun x => Forall (R x) l2) l1.
Proof.
  induction l1 as [|x t IH]; simpl; intros H.
  - split; constructor.
  - inversion H as [|? ? Hs Hall]; subst.
    destruct (IH Hs) as [Hs1 Hc]. apply Forall_app in Hall. destruct Hall as [Ht Hl2].
    split; constructor; assumption.
Qed.

(** C4, as the code has it. The top-manufacturers chart has at most ten
    bars, one per manufacturer and no manufacturer twice; a bar's value is
    the int64 sum of [quantidade fisica] over the manufacturer's rows
    ([soma]: a sum that leaves the int64 range wraps around); the bars
    are in descending order of that value; a manufacturer that is left out
    is left out of a chart of ten, and its value is at most that of every
    bar. (The order of equal values is the sort's: see
    [desempate_nao_e_por_primeira_aparicao].) *)
Theorem top_10_fabricantes_correto (df_filtrado : DataFrame) :
  (List.length (df_top_10_fabricantes df_filtrado) <= 10)%nat /\
  NoDup (map fst (df_top_10_fabricantes df_filtrado)) /\
  (forall f q,
     In (f, q) (df_top_10_fabricantes df_filtrado) ->
     In f (map fabricante df_filtrado) /\ q = total_do_fabricante df_filtrado f) /\
  StronglySorted (fun a b => snd b <= snd a) (df_top_10_fabricantes df_filtrado) /\
  (forall f,
     In f (map fabricante df_filtrado) ->
     ~ In f (map fst (df_top_10_fabricantes df_filtrado)) ->
     List.length (df_top_10_fabricantes df_filtrado) = 10%nat /\
     Forall (fun g => total_do_fabricante df_filtrado f <= snd g)
       (df_top_10_fabricantes df_filtrado)).
Proof.
  unfold df_top_10_fabricantes.
  set (g := df_agrupado_fabricante df_filtrado).
  set (s := sort_values_desc snd g).
  assert (Hperm : Permutation s g) by apply sort_values_perm.
  assert (Hsorted : StronglySorted (fun a b => snd b <= snd a) s)
    by apply sort_values_sorted.
  assert (Hsplit : s = firstn 10 s ++ skipn 10 s)
    by (symmetry; apply firstn_skipn).
  assert (Hnd : NoDup (map fst s)).
  { eapply Permutation_NoDup; [apply Permutation_map, Permutation_sym, Hperm|].
    unfold g. rewrite df_agrupado_fabricante_fst. apply chaves_NoDup. }
  rewrite Hsplit in Hsorted. apply StronglySorted_app_inv in Hsorted.
  destruct Hsorted as [Hs1 Hcross].
  split; [apply firstn_le_length|].
  split.
  { rewrite Hsplit, map_app in Hnd. apply NoDup_app_remove_r in Hnd. exact Hnd. }
  split.
  { intros f q Hin.
    assert (Hg : In (f, q) g).
    { eapply Permutation_in; [exact Hperm|]. rewrite Hsplit.
      apply in_or_app. left. exact Hin. }
    unfold g in Hg. rewrite df_agrupado_fabricante_por_chave in Hg.
    apply in_map_iff in Hg. destruct Hg as [k [Hk Hin']]. inversion Hk; subst.
    split; [apply chaves_In, Hin' | reflexivity]. }
  split; [exact Hs1|].
  intros f Hf Hout.
  assert (Hs : In (f, total_do_fabricante df_filtrado f) s).
  { eapply Permutation_in; [apply Permutation_sym, Hperm|].
    unfold g. rewrite df_agrupado_fabricante_por_chave.
    apply in_map_iff. exists f. split; [reflexivity | apply chaves_In, Hf]. }
  rewrite Hsplit in Hs. apply in_app_or in Hs. destruct Hs as [Hs | Hs].
  { exfalso. apply Hout. apply in_map_iff.
    exists (f, total_do_fabricante df_filtrado f). split; [reflexivity | exact Hs]. }
  split.
  - apply firstn_length_le.
    destruct (Nat.le_gt_cases 10 (List.length s)) as [Hle | Hlt]; [exact Hle|].
    rewrite skipn_all2 in Hs by lia. destruct Hs.
  - eapply Forall_impl; [|exact Hcross].
    intros x Hx. simpl in Hx. rewrite Forall_forall in Hx.
    apply (Hx _ Hs).
Qed.

(** The row at which a manufacturer first appears. *)
Fixpoint primeira_linha (f : string) (df : DataFrame) : nat :=
  match df with
  | [] => O
  | l :: resto =>
      if String.eqb (fabricante l) f then O else S (primeira_linha f resto)
  end.

(** "Ties broken by first-seen manufacturer order": of two bars with the
    same sum, the one to the left is the manufacturer met first in the
    filtered table. *)
Definition desempate_por_primeira_aparicao (df : DataFrame) (top : list (string * Z)) : Prop :=
  forall i j a b,
    (i < j)%nat ->
    nth_error top i = Some a -> nth_error top j = Some b ->
    snd a = snd b ->
    (primeira_linha (fst a) df < primeira_linha (fst b) df)%nat.

Lemma df_agrupado_fabricante_dois (la lb : Linha) :
  fabricante la = "A" -> fabricante lb = "B" ->
  df_agrupado_fabricante [la; lb]
  = [("A", soma [quantidade_fisica la]); ("B", soma [quantidade_fisica lb])] /\
  df_agrupado_fabricante [lb; la]
  = [("A", soma [quantidade_fisica la]); ("B", soma [quantidade_fisica lb])].
Proof.
  intros Ha Hb. unfold df_agrupado_fabricante, groupby. simpl.
  rewrite ?Ha, ?Hb. simpl. rewrite ?Ha, ?Hb. simpl. split; reflexivity.
Qed.

(** Whatever the sort does with equal sums, it cannot break ties by first
    appearance: the grouped table it sorts is the same for a table and for
    the table with its rows swapped. *)
Theorem desempate_nao_e_por_primeira_aparicao (la lb : Linha) :
  fabricante la = "A" -> fabricante lb = "B" ->
  quantidade_fisica la = quantidade_fisica lb ->
  ~ (desempate_por_primeira_aparicao [la; lb] (df_top_10_fabricantes [la; lb]) /\
     desempate_por_primeira_aparicao [lb; la] (df_top_10_fabricantes [lb; la])).
Proof.
  intros Ha Hb Hq [H1 H2]. unfold df_top_10_fabricantes in *.
  destruct (df_agrupado_fabricante_dois la lb Ha Hb) as [E1 E2].
  rewrite E1 in H1. rewrite E2 in H2. rewrite <- Hq in *.
  set (q := soma [quantidade_fisica la]) in *.
  pose proof (sort_values_perm _ snd [("A", q); ("B", q)]) as Hp.
  apply Permutation_sym, Permutation_length_2_inv in Hp.
  destruct Hp as [Hp | Hp]; rewrite Hp in H1, H2; simpl in H1, H2.
  - specialize (H2 0%nat 1%nat ("A", q) ("B", q)). simpl in H2.
    rewrite Ha, Hb in H2. simpl in H2.
    specialize (H2 ltac:(lia) eq_refl eq_refl eq_refl). lia.
  - specialize (H1 0%nat 1%nat ("B", q) ("A", q)). simpl in H1.
    rewrite Ha, Hb in H1. simpl in H1.
    specialize (H1 ltac:(lia) eq_refl eq_refl eq_refl). lia.
Qed.

(** *** Damage analysis *)

Lemma analise_avarias_In (df_filtrado : DataFrame) (l' : Linha) :
  In l' (analise_avarias df_filtrado) <->
  exists l,
    In l df_filtrado /\ quantidade_avariada l > 0 /\
    l' = com_colunas l (fillna_derivada (ano_compra l)) (fillna_derivada (mes_compra l))
           (fillna_derivada (dias_desde_ultima_compra l))
           (Some (fillna_0 (vezes_100
                    (dividir (quantidade_avariada l) (quantidade_fisica l))))).
Proof.
  unfold analise_avarias, fillna, atribuir_porcentagem, df_avariado.
  rewrite sort_values_desc_In, map_map, in_map_iff. simpl.
  split.
  - intros [l [E Hin]]. apply filter_In in Hin. destruct Hin as [Hin Hav].
    apply Z.gtb_lt in Hav. exists l. repeat split; [assumption | lia | symmetry; exact E].
  - intros [l [Hin [Hav E]]]. exists l. split; [symmetry; exact E|].
    apply filter_In. split; [assumption|]. apply Z.gtb_lt. lia.
Qed.

(** C1, on the code. Where the division is by zero the displayed
    percentage is not 0: a displayed row has a positive damaged quantity,
    so the quotient is an infinity, which [fillna(0)] does not count as a
    missing value and leaves in the table. *)
Theorem porcentagem_avaria_divisao_por_zero (df_filtrado : DataFrame) (l : Linha) :
  In l (analise_avarias df_filtrado) ->
  quantidade_fisica l = 0 ->
  porcentagem_avaria l = Some f_inf.
Proof.
  intros Hin Hz. apply analise_avarias_In in Hin.
  destruct Hin as [l0 [_ [Hav ->]]]. simpl in *. rewrite Hz.
  unfold dividir. simpl. destruct (0 <? quantidade_avariada l0) eqn:E.
  - reflexivity.
  - apply Z.ltb_ge in E. lia.
Qed.

(** No NaN reaches the table, and every displayed row has a percentage. *)
Lemma porcentagem_avaria_sem_nan (df_filtrado : DataFrame) (l : Linha) :
  In l (analise_avarias df_filtrado) ->
  exists x, porcentagem_avaria l = Some x /\ x <> f_nan.
Proof.
  intros Hin. apply analise_avarias_In in Hin.
  destruct Hin as [l0 [_ [_ ->]]]. simpl. eexists. split; [reflexivity|].
  destruct (vezes_100 _); simpl; discriminate.
Qed.

(** The only quotient [fillna(0)] would turn into 0 is 0/0, of a row the
    section has already left out. *)
Lemma porcentagem_zero_sobre_zero :
  fillna_0 (vezes_100 (dividir 0 0)) = f_num 0.
Proof. reflexivity. Qed.

(** *** The sections on an empty table *)

(** C5. On an empty [df_filtrado] the sections raise nothing and change no
    table: the overview shows 0 products, 0 items and a value of 0, and
    each of the six sections below it shows the "no data" note and no
    table or chart. The note is [st.info], not the loader's warning or
    error. *)
Theorem secoes_sem_dados (m : Mundo) (df_filtrado : nat) (e : Entradas) :
  nth_error (objetos m) df_filtrado = Some [] ->
  secoes df_filtrado e m
  = Normal tt
      (mkMundo (objetos m)
         (tela m ++ [st_metric_produtos 0; st_metric_itens 0; st_metric_valor 0%Q;
                     st_info NenhumDado; st_info NenhumDado; st_info NenhumDado;
                     st_info NenhumDado; st_info NenhumDado; st_info NenhumDado])).
Proof.
  intros H.
  unfold secoes, visao_geral, top_fabricantes, disponibilidade, avarias, parado,
    criticos, desempenho, bind, conteudo, mostrar.
  simpl. repeat (rewrite H; simpl). rewrite <- !app_assoc. reflexivity.
Qed.

(** *** What the filter and the sections do to the tables *)

Lemma nth_error_trocar {A : Type} (i : nat) (x : A) (l : list A) :
  (i < List.length l)%nat -> nth_error (trocar i x l) i = Some x.
Proof.
  revert i. induction l as [|y t IH]; intros [|i] H; simpl in *; try lia.
  - reflexivity.
  - apply IH. lia.
Qed.

Lemma nth_error_trocar_outro {A : Type} (i j : nat) (x : A) (l : list A) :
  i <> j -> nth_error (trocar i x l) j = nth_error l j.
Proof.
  revert i j. induction l as [|y t IH]; intros [|i] [|j] H; simpl; auto.
  contradiction.
Qed.

Lemma trocar_novo (os : list DataFrame) (df df' : DataFrame) :
  trocar (List.length os) df' (os ++ [df]) = os ++ [df'].
Proof. induction os as [|o os IH]; simpl; [reflexivity | rewrite IH; reflexivity]. Qed.

Ltac ler_df H :=
  unfold bind, conteudo, mostrar; simpl; repeat (rewrite H; simpl).

Lemma visao_geral_le (m : Mundo) (r : nat) (df : DataFrame) :
  nth_error (objetos m) r = Some df ->
  exists t, visao_geral r m = Normal tt (mkMundo (objetos m) t).
Proof. intros H. unfold visao_geral. ler_df H. eexists. reflexivity. Qed.

Lemma top_fabricantes_le (m : Mundo) (r : nat) (df : DataFrame) :
  nth_error (objetos m) r = Some df ->
  exists t, top_fabricantes r m = Normal tt (mkMundo (objetos m) t).
Proof.
  intros H. unfold top_fabricantes. ler_df H.
  destruct (empty df); simpl; eexists; reflexivity.
Qed.

Lemma disponibilidade_le (m : Mundo) (r : nat) (df : DataFrame) (limite : Z) :
  nth_error (objetos m) r = Some df ->
  exists t, disponibilidade r limite m = Normal tt (mkMundo (objetos m) t).
Proof.
  intros H. unfold disponibilidade. ler_df H.
  destruct (empty df); simpl; [eexists; reflexivity|].
  destruct (empty (df_resumo_quantidades df)); simpl;
    destruct (empty (produtos_baixa_disponibilidade df limite)); simpl;
    eexists; reflexivity.
Qed.

Lemma criticos_le (m : Mundo) (r : nat) (df : DataFrame) (limite : Z) :
  nth_error (objetos m) r = Some df ->
  exists t, criticos r limite m = Normal tt (mkMundo (objetos m) t).
Proof.
  intros H. unfold criticos. ler_df H.
  destruct (empty df); simpl; [eexists; reflexivity|].
  destruct (empty (produtos_criticos df limite)); simpl; eexists; reflexivity.
Qed.

Lemma desempenho_le (m : Mundo) (r : nat) (df : DataFrame) :
  nth_error (objetos m) r = Some df ->
  exists t, desempenho r m = Normal tt (mkMundo (objetos m) t).
Proof.
  intros H. unfold desempenho. ler_df H.
  destruct (empty df); simpl; eexists; reflexivity.
Qed.

(** The damage section works on a copy: what it adds and fills is its own
    object, new in the store. *)
Lemma avarias_le (m : Mundo) (r : nat) (df : DataFrame) :
  nth_error (objetos m) r = Some df ->
  exists t novos, avarias r m = Normal tt (mkMundo (objetos m ++ novos) t).
Proof.
  intros H. unfold avarias. ler_df H.
  destruct (empty df); simpl.
  { exists (tela m ++ [st_info NenhumDado]), []. rewrite app_nil_r. reflexivity. }
  unfold novo, alterar. simpl. rewrite nth_error_novo. simpl.
  destruct (empty (df_avariado df)); simpl.
  { eexists _, [_]. reflexivity. }
  rewrite nth_error_novo. simpl. rewrite trocar_novo, nth_error_novo. simpl.
  rewrite trocar_novo, nth_error_novo. simpl.
  eexists _, [_]. reflexivity.
Qed.

(** The stale-stock section assigns its column to [df_filtrado] itself. *)
Lemma parado_altera (m : Mundo) (r : nat) (df : DataFrame) (hoje_ : Timestamp)
    (limite : Z) :
  nth_error (objetos m) r = Some df ->
  exists t,
    parado r hoje_ limite m
    = Normal tt
        (mkMundo (if empty df then objetos m
                  else trocar r (atribuir_dias hoje_ df) (objetos m)) t).
Proof.
  intros H. unfold parado. ler_df H.
  destruct (empty df) eqn:E; simpl; [eexists; reflexivity|].
  unfold alterar. rewrite H. simpl.
  rewrite nth_error_trocar by (apply nth_error_Some; congruence). simpl.
  destruct (empty (estoque_parado (atribuir_dias hoje_ df) limite)); simpl;
    eexists; reflexivity.
Qed.

(** Without the new column the table is the one it was: same rows, same
    order, same other cells. *)
Lemma atribuir_dias_so_a_coluna (hoje_ : Timestamp) (df : DataFrame) :
  map (fun l => com_dias l SemColuna) (atribuir_dias hoje_ df)
  = map (fun l => com_dias l SemColuna) df.
Proof. unfold atribuir_dias. rewrite map_map. reflexivity. Qed.

(** C3, as the code has it. Filtering leaves [df_estoque] and every other
    table as it was and binds [df_filtrado] to a new object; the overview,
    top-manufacturers, availability, critical-products and performance
    sections change no table, and the damage section only its own copy.
    The stale-stock section, on a table that is not empty, assigns the
    column [dias_desde_ultima_compra] to [df_filtrado] in place: the rows,
    their order and their other cells stay, and no other table changes. *)
Theorem filtro_e_secoes_sobre_as_tabelas (m : Mundo) (r : nat) (df : DataFrame)
    (ano : FiltroAno) (mes : string) (e : Entradas) :
  nth_error (objetos m) r = Some df ->
  (exists r' m',
     filtrar r ano mes m = Normal r' m' /\ intactos m m' /\ r' <> r /\
     nth_error (objetos m') r' = Some (aplicar_filtros df ano mes)) /\
  (exists m', visao_geral r m = Normal tt m' /\ objetos m' = objetos m) /\
  (exists m', top_fabricantes r m = Normal tt m' /\ objetos m' = objetos m) /\
  (exists m', disponibilidade r (limite_disponibilidade e) m = Normal tt m'
              /\ objetos m' = objetos m) /\
  (exists m', avarias r m = Normal tt m' /\ intactos m m') /\
  (exists m', criticos r (min_disponivel e) m = Normal tt m'
              /\ objetos m' = objetos m) /\
  (exists m', desempenho r m = Normal tt m' /\ objetos m' = objetos m) /\
  (exists m',
     parado r (hoje e) (limite_dias_compra e) m = Normal tt m' /\
     (forall i, i <> r -> nth_error (objetos m') i = nth_error (objetos m) i) /\
     nth_error (objetos m') r
     = Some (if empty df then df else atribuir_dias (hoje e) df)) /\
  map (fun l => com_dias l SemColuna) (atribuir_dias (hoje e) df)
  = map (fun l => com_dias l SemColuna) df.
Proof.
  intros H.
  assert (Hr : (r < List.length (objetos m))%nat)
    by (apply nth_error_Some; congruence).
  split.
  { destruct (filtrar_aplicar_filtros m r df ano mes H) as [r' [novos [E [Hle Hn]]]].
    exists r', (mkMundo (objetos m ++ novos) (tela m)).
    split; [exact E|]. split; [|split; [lia | exact Hn]].
    destruct m as [os t]. apply intactos_app. }
  split. { destruct (visao_geral_le m r df H) as [t E]. eexists; split; [exact E | reflexivity]. }
  split. { destruct (top_fabricantes_le m r df H) as [t E]. eexists; split; [exact E | reflexivity]. }
  split. { destruct (disponibilidade_le m r df (limite_disponibilidade e) H) as [t E].
           eexists; split; [exact E | reflexivity]. }
  split. { destruct (avarias_le m r df H) as [t [novos E]]. eexists; split; [exact E|].
           destruct m as [os t0]. apply intactos_app. }
  split. { destruct (criticos_le m r df (min_disponivel e) H) as [t E].
           eexists; split; [exact E | reflexivity]. }
  split. { destruct (desempenho_le m r df H) as [t E]. eexists; split; [exact E | reflexivity]. }
  split; [|apply atribuir_dias_so_a_coluna].
  destruct (parado_altera m r df (hoje e) (limite_dias_compra e) H) as [t E].
  eexists; split; [exact E|]. simpl. destruct (empty df).
  - split; [reflexivity | exact H].
  - split; [intros i Hi; apply nth_error_trocar_outro; congruence|].
    apply nth_error_trocar, Hr.
Qed.

(** *** More on the filter *)

(** With a year selected, every row kept is of that year, whatever the
    month selector says, and the rows kept are rows of the table, in table
    order. *)
Theorem filtro_por_ano (df_estoque : DataFrame) (y : Z) (mes : string) :
  Forall (fun l => ano_compra l = Valor y) (aplicar_filtros df_estoque (Ano y) mes) /\
  exists manter, aplicar_filtros df_estoque (Ano y) mes = filter manter df_estoque.
Proof.
  assert (Hy : forall l, igual (ano_compra l) y = true -> ano_compra l = Valor y).
  { intros l. unfold igual. destruct (ano_compra l) as [| |z]; try discriminate.
    intros E. apply Z.eqb_eq in E. congruence. }
  unfold aplicar_filtros.
  destruct (String.eqb mes "Todos");
    [|destruct (num_mes_selecionado MESES_ABREVIADOS mes) as [num|]].
  - split; [|eexists; reflexivity].
    apply Forall_forall. intros l Hl. apply filter_In in Hl. apply Hy, Hl.
  - split.
    + apply Forall_forall. intros l Hl. apply filter_In in Hl. destruct Hl as [Hl _].
      apply filter_In in Hl. apply Hy, Hl.
    + exists (fun l => igual (ano_compra l) y && igual (mes_compra l) num).
      induction df_estoque as [|l t IH]; simpl; [reflexivity|].
      destruct (igual (ano_compra l) y); simpl; [|exact IH].
      destruct (igual (mes_compra l) num); simpl; rewrite IH; reflexivity.
  - split; [|eexists; reflexivity].
    apply Forall_forall. intros l Hl. apply filter_In in Hl. apply Hy, Hl.
Qed.

Lemma num_mes_selecionado_conhecido (num : Z) (mes : string) :
  In (num, mes) MESES_ABREVIADOS ->
  num_mes_selecionado MESES_ABREVIADOS mes = Some num /\ mes <> "Todos".
Proof.
  simpl. intros H.
  repeat (destruct H as [H | H];
          [inversion H; subst; split; [reflexivity | discriminate]|]).
  destruct H.
Qed.


(** With a year and one of the twelve months selected, the rows kept are
    exactly those of that year and that month. *)
Theorem filtro_por_ano_e_mes (df_estoque : DataFrame) (y num : Z) (mes : string) :
  In (num, mes) MESES_ABREVIADOS ->
  forall l, In l (aplicar_filtros df_estoque (Ano y) mes) <->
            In l df_estoque /\ ano_compra l = Valor y /\ mes_compra l = Valor num.
Proof.
  intros Hm l. destruct (num_mes_selecionado_conhecido num mes Hm) as [E Hnt].
  unfold aplicar_filtros. rewrite E.
  destruct (String.eqb_spec mes "Todos") as [|_]; [contradiction|].
  rewrite !filter_In.
  assert (Hig : forall c v, igual c v = true <-> c = Valor v).
  { intros c v. unfold igual. destruct c as [| |z]; split; try discriminate.
    - intros H. apply Z.eqb_eq in H. congruence.
    - intros H. inversion H. apply Z.eqb_refl. }
  rewrite !Hig. tauto.
Qed.

(** *** Stale stock *)

(** The stale-stock table, computed from the table with its new column:
    exactly the rows bought more than [limite] days before [hoje] of which
    something is on hand, in descending order of the days. *)
Theorem estoque_parado_correto (hoje_ : Timestamp) (df_filtrado : DataFrame) (limite : Z) :
  (forall l', In l' (estoque_parado (atribuir_dias hoje_ df_filtrado) limite) <->
     exists l t,
       In l df_filtrado /\ data_ultima_compra l = Momento t /\
       dt_days hoje_ t > limite /\ quantidade_fisica l > 0 /\
       l' = com_dias l (Valor (dt_days hoje_ t))) /\
  StronglySorted (fun a b => dias b <= dias a)
    (estoque_parado (atribuir_dias hoje_ df_filtrado) limite).
Proof.
  split; [|apply sort_values_sorted].
  intros l'. unfold estoque_parado, atribuir_dias.
  rewrite sort_values_desc_In, filter_In, in_map_iff, andb_true_iff.
  split.
  - intros [[l [E Hin]] [Hd Hf]]. subst l'. simpl in Hd, Hf.
    unfold dias_desde in *. destruct (data_ultima_compra l) as [s|t|] eqn:Ed;
      simpl in Hd; try discriminate.
    exists l, t. apply Z.gtb_lt in Hd. apply Z.gtb_lt in Hf.
    split; [assumption|]. split; [assumption|]. split; [lia|]. split; [lia | reflexivity].
  - intros [l [t [Hin [Ed [Hd [Hf E]]]]]]. subst l'. split.
    + exists l. split; [unfold dias_desde; rewrite Ed; reflexivity | assumption].
    + simpl. split; apply Z.gtb_lt; lia.
Qed.

(** *** A failed load ends the page *)

(** When [carregar_dados] returns [None] the page shows the loader's
    message and the request to load a file, and nothing else: no table is
    created and no section runs. *)
Theorem painel_sem_dados (arquivo : Leitura) (avisos : list Elemento)
    (e : Entradas) (m : Mundo) :
  carregar_dados arquivo = (None, avisos) ->
  painel arquivo e m
  = Normal tt (mkMundo (objetos m) (tela m ++ avisos ++ [st_info CarregueUmArquivo])).
Proof.
  intros H. unfold painel. rewrite H. unfold bind, mostrar_todos, mostrar. simpl.
  rewrite <- app_assoc. reflexivity.
Qed.

(** "No section changes the filtered table it is given." *)
Definition nao_altera_df_filtrado (secao : nat -> Script unit) : Prop :=
  forall m r m',
    secao r m = Normal tt m' -> nth_error (objetos m') r = nth_error (objetos m) r.

End Propriedades.

(** ** Ties under a stable sort *)

Section Estavel.

Context {calendario : Calendario}.

#[local] Existing Instance ordenacao_estavel.

Lemma chaves_sorted (coluna : Linha -> string) (df : DataFrame) :
  StronglySorted (fun a b => String.leb a b = true) (chaves coluna df).
Proof.
  unfold chaves. apply ordenar_sorted.
  - apply string_leb_total.
  - apply string_leb_trans.
Qed.

(** Left of: a larger sum, or the same sum and a name that is not later. *)
Definition antes_no_grafico (a b : string * Z) : Prop :=
  snd b < snd a \/ (snd b = snd a /\ String.leb (fst a) (fst b) = true).

Lemma inserir_estavel (x : string * Z) (l : list (string * Z)) :
  Forall (fun y => String.leb (fst x) (fst y) = true) l ->
  StronglySorted antes_no_grafico l ->
  StronglySorted antes_no_grafico (inserir (fun a b => snd b <=? snd a) x l).
Proof.
  intros Hn Hs. induction Hs as [|y t Hs IH Hall]; simpl.
  - repeat constructor.
  - inversion Hn as [|? ? Hxy Hnt]; subst.
    destruct (snd y <=? snd x) eqn:E.
    + apply Z.leb_le in E.
      assert (Hx : forall z, snd z <= snd x -> String.leb (fst x) (fst z) = true ->
                             antes_no_grafico x z).
      { intros z Hz Hl. unfold antes_no_grafico.
        destruct (Z.eq_dec (snd z) (snd x)) as [Eq|Ne]; [right; auto | left; lia]. }
      constructor; [constructor; assumption|].
      constructor; [apply Hx; assumption|].
      rewrite Forall_forall in *. intros z Hz. apply Hx; [|apply Hnt, Hz].
      destruct (Hall z Hz) as [Hlt | [Heq _]]; lia.
    + apply Z.leb_gt in E. constructor; [apply IH, Hnt|].
      eapply Permutation_Forall; [apply Permutation_sym, inserir_perm|].
      constructor; [left; exact E | exact Hall].
Qed.

Lemma sort_estavel_desc_por_nome (g : list (string * Z)) :
  StronglySorted (fun a b => String.leb (fst a) (fst b) = true) g ->
  StronglySorted antes_no_grafico (sort_estavel_desc snd g).
Proof.
  unfold sort_estavel_desc. induction 1 as [|x t Hs IH Hall]; simpl.
  - constructor.
  - apply inserir_estavel; [|exact IH].
    eapply Permutation_Forall; [apply Permutation_sym, ordenar_perm | exact Hall].
Qed.

(** With a stable sort the order of equal sums is settled, and it is the
    ascending order of the manufacturers' names, in which [groupby] hands
    the groups to the sort. *)
Theorem top_10_estavel_desempata_por_nome (df_filtrado : DataFrame) :
  StronglySorted antes_no_grafico (df_top_10_fabricantes df_filtrado).
Proof.
  unfold df_top_10_fabricantes. simpl sort_values_desc.
  set (s := sort_estavel_desc snd (df_agrupado_fabricante df_filtrado)).
  assert (Hs : StronglySorted antes_no_grafico s).
  { apply sort_estavel_desc_por_nome.
    rewrite df_agrupado_fabricante_por_chave.
    pose proof (chaves_sorted fabricante df_filtrado) as Hk.
    induction Hk as [|k ks Hk IH Hall]; simpl; constructor.
    - exact IH.
    - apply Forall_map. simpl. exact Hall. }
  rewrite <- (firstn_skipn 10 s) in Hs.
  apply StronglySorted_app_inv in Hs. apply Hs.
Qed.

End Estavel.

(** ** The selectors and the columns behind them *)

Section Seletores.

Context {calendario : Calendario}.

Lemma derivada_eqb_eq (a b : Derivada) : derivada_eqb a b = true <-> a = b.
Proof.
  destruct a as [| |x], b as [| |y]; simpl; split; try discriminate; try reflexivity.
  - intros H. apply Z.eqb_eq in H. congruence.
  - intros H. inversion H. apply Z.eqb_refl.
Qed.

Lemma igual_Valor (c : Derivada) (v : Z) : igual c v = true <-> c = Valor v.
Proof.
  unfold igual. destruct c as [| |z]; split; try discriminate.
  - intros H. apply Z.eqb_eq in H. congruence.
  - intros H. inversion H. apply Z.eqb_refl.
Qed.

Lemma valores_In (cs : list Derivada) (z : Z) : In z (valores cs) <-> In (Valor z) cs.
Proof.
  unfold valores. rewrite in_flat_map. split.
  - intros [c [Hc Hz]]. destruct c as [| |x]; simpl in Hz; try contradiction.
    destruct Hz as [-> | []]. exact Hc.
  - intros H. exists (Valor z). split; [exact H | left; reflexivity].
Qed.

Lemma todos_ou_nada_Some {A B : Type} (f : A -> option B) (l : list A) (r : list B) :
  todos_ou_nada f l = Some r -> Forall2 (fun x y => f x = Some y) l r.
Proof.
  revert r. induction l as [|x t IH]; simpl; intros r H.
  - inversion H. constructor.
  - destruct (f x) as [y|] eqn:E; [|discriminate].
    destruct (todos_ou_nada f t) as [r'|]; [|discriminate].
    inversion H; subst. constructor; [exact E | apply IH; reflexivity].
Qed.

Lemma todos_ou_nada_None {A B : Type} (f : A -> option B) (l : list A) :
  todos_ou_nada f l = None <-> exists x, In x l /\ f x = None.
Proof.
  induction l as [|x t IH]; simpl.
  - split; [discriminate | intros [x [[] _]]].
  - destruct (f x) as [y|] eqn:E.
    + destruct (todos_ou_nada f t) as [r|].
      * split; [discriminate|]. intros [z [[-> | Hz] Hf]]; [congruence|].
        assert (Hc : Some r = None) by (apply IH; exists z; split; assumption).
        discriminate Hc.
      * split; [|reflexivity]. intros _.
        destruct (proj1 IH eq_refl) as [z [Hz Hf]]. exists z. split; [right|]; assumption.
    + split; [|reflexivity]. intros _. exists x. split; [left; reflexivity | exact E].
Qed.

(** A list in descending order without repetition is strictly descending. *)
Lemma decrescente_estrito (l : list Z) :
  StronglySorted (fun a b => (b <=? a) = true) l -> NoDup l ->
  StronglySorted (fun a b => b < a) l.
Proof.
  induction 1 as [|x t Hs IH Hall]; intros Hnd; constructor.
  - apply IH. inversion Hnd; assumption.
  - inversion Hnd as [|? ? Hx _]; subst. rewrite Forall_forall in *.
    intros y Hy. specialize (Hall y Hy). apply Z.leb_le in Hall.
    assert (y <> x) by (intros ->; contradiction). lia.
Qed.

Lemma todos_anos_In (df_estoque : DataFrame) (y : Z) :
  In (Ano y) (todos_anos df_estoque) <->
  exists l, In l df_estoque /\ ano_compra l = Valor y.
Proof.
  unfold todos_anos.
  set (us := unique Z.eqb (valores (map ano_compra df_estoque))).
  assert (Hp : Permutation (ordenar (fun a b => b <=? a) us) us) by apply ordenar_perm.
  split.
  - intros [H | H]; [discriminate|].
    apply in_map_iff in H. destruct H as [y' [E H]]. inversion E; subst y'.
    apply (Permutation_in _ Hp) in H. unfold us in H.
    apply (proj1 (unique_In Z.eqb Z.eqb_eq _ _)) in H. apply valores_In in H.
    apply in_map_iff in H. destruct H as [l [El Hl]]. exists l. split; assumption.
  - intros [l [Hl E]]. right. apply in_map.
    apply (Permutation_in _ (Permutation_sym Hp)). unfold us.
    apply (proj2 (unique_In Z.eqb Z.eqb_eq _ _)). apply valores_In. rewrite <- E.
    apply in_map, Hl.
Qed.

(** The year selector offers ['Todos'] first and then the years that occur
    in the table, each once, from the latest to the earliest. *)
Theorem todos_anos_decrescente (df_estoque : DataFrame) :
  exists anos,
    todos_anos df_estoque = Todos :: map Ano anos /\
    StronglySorted (fun a b => b < a) anos /\
    (forall y, In y anos <-> exists l, In l df_estoque /\ ano_compra l = Valor y).
Proof.
  exists (ordenar (fun a b => b <=? a)
            (unique Z.eqb (valores (map ano_compra df_estoque)))).
  split; [reflexivity|]. split.
  - apply decrescente_estrito.
    + apply ordenar_sorted.
      * intros a b H. apply Z.leb_gt in H. apply Z.leb_le. lia.
      * intros a b c H1 H2. apply Z.leb_le in H1. apply Z.leb_le in H2.
        apply Z.leb_le. lia.
    + eapply Permutation_NoDup; [apply Permutation_sym, ordenar_perm|].
      apply unique_NoDup, Z.eqb_eq.
  - intros y. rewrite <- todos_anos_In. unfold todos_anos. split.
    + intros H. right. apply in_map, H.
    + intros [H | H]; [discriminate|]. apply in_map_iff in H.
      destruct H as [y' [E H]]. inversion E; subst. exact H.
Qed.

Lemma abreviar_em_In (itens : list (Z * string)) (m : Z) (a : string) :
  abreviar_em itens m = Some a -> In (m, a) itens.
Proof.
  induction itens as [|[num abbrev] resto IH]; simpl; [discriminate|].
  destruct (Z.eqb_spec num m) as [->|_].
  - intros H. inversion H. left. reflexivity.
  - intros H. right. apply IH, H.
Qed.

(** A month offered by the month selector is ['Todos'] or the abbreviation
    of the month of some row of the selected year. *)
Lemma todos_meses_In (df_estoque : DataFrame) (y : Z) (opcoes : list string)
    (mes : string) :
  todos_meses df_estoque (Ano y) = Some opcoes -> In mes opcoes ->
  mes = "Todos" \/
  exists l m, In l df_estoque /\ ano_compra l = Valor y /\ mes_compra l = Valor m /\
              In (m, mes) MESES_ABREVIADOS.
Proof.
  unfold todos_meses, meses_disponiveis.
  destruct (todos_ou_nada abreviar _) as [abrevs|] eqn:E; simpl; [|discriminate].
  intros H Hin. inversion H; subst opcoes. destruct Hin as [Hin | Hin]; [left; auto|].
  right. eapply Permutation_in in Hin; [|apply ordenar_perm].
  apply todos_ou_nada_Some in E.
  assert (Hc : exists c, In c (unique derivada_eqb
                 (map mes_compra (filter (fun l => igual (ano_compra l) y) df_estoque)))
               /\ abreviar c = Some mes).
  { clear -E Hin. induction E as [|c a cs abrevs Hca _ IH]; [destruct Hin|].
    destruct Hin as [-> | Hin].
    - exists c. split; [left; reflexivity | exact Hca].
    - destruct (IH Hin) as [c' [Hc' Ha]]. exists c'. split; [right|]; assumption. }
  destruct Hc as [c [Hc Ha]].
  apply (proj1 (unique_In derivada_eqb derivada_eqb_eq _ _)) in Hc.
  apply in_map_iff in Hc. destruct Hc as [l [El Hl]].
  apply filter_In in Hl. destruct Hl as [Hl Hy]. apply igual_Valor in Hy.
  destruct c as [| |m]; try discriminate Ha. unfold abreviar in Ha.
  exists l, m. split; [assumption|]. split; [assumption|]. split; [assumption|].
  exact (abreviar_em_In _ _ _ Ha).
Qed.

Lemma inserir_map {A B : Type} (f : A -> B) (antes1 : A -> A -> bool)
    (antes2 : B -> B -> bool) (x : A) (l : list A) :
  (forall y, In y l -> antes2 (f x) (f y) = antes1 x y) ->
  map f (inserir antes1 x l) = inserir antes2 (f x) (map f l).
Proof.
  induction l as [|y t IH]; simpl; intros H; [reflexivity|].
  rewrite (H y (or_introl eq_refl)). destruct (antes1 x y); simpl; [reflexivity|].
  rewrite IH; [reflexivity|]. intros z Hz. apply H. right. exact Hz.
Qed.

Lemma ordenar_map {A B : Type} (f : A -> B) (antes1 : A -> A -> bool)
    (antes2 : B -> B -> bool) (l : list A) :
  (forall x y, In x l -> In y l -> antes2 (f x) (f y) = antes1 x y) ->
  map f (ordenar antes1 l) = ordenar antes2 (map f l).
Proof.
  induction l as [|x t IH]; simpl; intros H; [reflexivity|].
  rewrite (inserir_map f antes1 antes2).
  - rewrite IH; [reflexivity|]. intros a b Ha Hb. apply H; right; assumption.
  - intros y Hy. apply H; [left; reflexivity|]. right.
    eapply Permutation_in; [apply ordenar_perm | exact Hy].
Qed.

Lemma StronglySorted_map {A B : Type} (f : A -> B) (R : B -> B -> Prop) (l : list A) :
  StronglySorted (fun a b => R (f a) (f b)) l -> StronglySorted R (map f l).
Proof.
  induction 1 as [|x t Hs IH Hall]; simpl; constructor; [exact IH|].
  apply Forall_map. exact Hall.
Qed.

Lemma crescente_estrito (l : list Z) :
  StronglySorted (fun a b => a <= b) l -> NoDup l -> StronglySorted Z.lt l.
Proof.
  induction 1 as [|x t Hs IH Hall]; intros Hnd; constructor.
  - apply IH. inversion Hnd; assumption.
  - inversion Hnd as [|? ? Hx _]; subst. rewrite Forall_forall in *.
    intros y Hy. specialize (Hall y Hy).
    assert (y <> x) by (intros ->; contradiction). lia.
Qed.

(** Where a month stands in the list of abbreviations, and its range. *)
Lemma posicao_mes (m : Z) (a : string) :
  In (m, a) MESES_ABREVIADOS ->
  Z.of_nat (indice a (map snd MESES_ABREVIADOS)) = m - 1 /\ 1 <= m <= 12.
Proof.
  simpl. intros H.
  repeat (destruct H as [H | H]; [inversion H; subst; split; [reflexivity | lia]|]).
  destruct H.
Qed.

Lemma pares_de_meses (ms : list Derivada) (abrevs : list string) :
  Forall2 (fun c a => abreviar c = Some a) ms abrevs ->
  exists ps : list (Z * string),
    map snd ps = abrevs /\ map (fun p => Valor (fst p)) ps = ms /\
    Forall (fun p => In p MESES_ABREVIADOS) ps.
Proof.
  induction 1 as [|c a ms abrevs Hca _ [ps [E1 [E2 Hps]]]].
  - exists []. repeat split. constructor.
  - destruct c as [| |m]; try discriminate Hca. unfold abreviar in Hca.
    exists ((m, a) :: ps). simpl. rewrite E1, E2. repeat split.
    constructor; [exact (abreviar_em_In _ _ _ Hca) | exact Hps].
Qed.

(** The month selector for a year: building it raises the KeyError
    exactly when some row of the year has no month between 1 and 12;
    otherwise it offers ['Todos'] and then the abbreviations of the months
    that rows of the year have, each once, in calendar order. *)
Theorem todos_meses_do_ano (df_estoque : DataFrame) (y : Z) :
  (todos_meses df_estoque (Ano y) = None <->
   exists l, In l df_estoque /\ ano_compra l = Valor y
             /\ abreviar (mes_compra l) = None) /\
  (forall opcoes,
     todos_meses df_estoque (Ano y) = Some opcoes ->
     exists meses abrevs,
       opcoes = "Todos" :: abrevs /\
       Forall2 (fun m a => In (m, a) MESES_ABREVIADOS) meses abrevs /\
       StronglySorted Z.lt meses /\
       (forall m, In m meses <->
                  exists l, In l df_estoque /\ ano_compra l = Valor y
                            /\ mes_compra l = Valor m)).
Proof.
  unfold todos_meses, meses_disponiveis.
  set (ms := unique derivada_eqb
               (map mes_compra (filter (fun l => igual (ano_compra l) y) df_estoque))).
  assert (Hms : forall c, In c ms <->
                  exists l, In l df_estoque /\ ano_compra l = Valor y /\ mes_compra l = c).
  { intros c. unfold ms. rewrite (unique_In derivada_eqb derivada_eqb_eq), in_map_iff.
    split.
    - intros [l [E Hl]]. apply filter_In in Hl. destruct Hl as [Hl Hy].
      apply igual_Valor in Hy. exists l. repeat split; assumption.
    - intros [l [Hl [Hy E]]]. exists l. split; [exact E|].
      apply filter_In. split; [exact Hl | apply igual_Valor, Hy]. }
  destruct (todos_ou_nada abreviar ms) as [abrevs|] eqn:E; simpl.
  - split.
    + split; [discriminate|]. intros [l [Hl [Hy Ha]]].
      assert (Hn : todos_ou_nada abreviar ms = None).
      { apply todos_ou_nada_None. exists (mes_compra l). split; [|exact Ha].
        apply Hms. exists l. repeat split; assumption. }
      congruence.
    + intros opcoes H. inversion H; subst opcoes. clear H.
      destruct (pares_de_meses ms abrevs (todos_ou_nada_Some _ _ _ E))
        as [ps [E1 [E2 Hps]]].
      set (sp := ordenar (fun p q => fst p <=? fst q) ps).
      assert (Hp : Permutation sp ps) by apply ordenar_perm.
      assert (Hsp : Forall (fun p => In p MESES_ABREVIADOS) sp)
        by (eapply Permutation_Forall; [apply Permutation_sym, Hp | exact Hps]).
      exists (map fst sp), (map snd sp). split; [|split; [|split]].
      * f_equal. rewrite <- E1. symmetry. apply ordenar_map.
        intros [m a] [m' a'] Hx Hy. rewrite Forall_forall in Hps.
        destruct (posicao_mes m a (Hps _ Hx)) as [P1 _].
        destruct (posicao_mes m' a' (Hps _ Hy)) as [P2 _].
        change ((indice a (map snd MESES_ABREVIADOS)
                 <=? indice a' (map snd MESES_ABREVIADOS))%nat = (m <=? m')).
        destruct (Nat.leb_spec (indice a (map snd MESES_ABREVIADOS))
                               (indice a' (map snd MESES_ABREVIADOS)));
          destruct (Z.leb_spec m m'); try reflexivity; lia.
      * clear -Hsp. induction Hsp as [|[m a] t Hm _ IH]; simpl; constructor; assumption.
      * apply crescente_estrito.
        -- apply StronglySorted_map.
           apply StronglySorted_impl
             with (R := fun p q : Z * string => (fst p <=? fst q) = true).
           ++ intros p q H. apply Z.leb_le, H.
           ++ apply ordenar_sorted.
              ** intros p q H. apply Z.leb_gt in H. apply Z.leb_le. lia.
              ** intros p q r H1 H2. apply Z.leb_le in H1. apply Z.leb_le in H2.
                 apply Z.leb_le. lia.
        -- eapply Permutation_NoDup; [apply Permutation_map, Permutation_sym, Hp|].
           apply (NoDup_map_inv Valor). rewrite map_map, E2.
           apply unique_NoDup, derivada_eqb_eq.
      * intros m. rewrite <- Hms, <- E2. split.
        -- intros H. apply (Permutation_in _ (Permutation_map fst Hp)) in H.
           apply in_map_iff in H. destruct H as [p [Ep Hp']].
           apply in_map_iff. exists p. split; [rewrite Ep; reflexivity | exact Hp'].
        -- intros H. apply in_map_iff in H. destruct H as [p [Ep Hp']].
           inversion Ep; subst m.
           apply (Permutation_in _ (Permutation_map fst (Permutation_sym Hp))).
           apply in_map, Hp'.
  - split.
    + split; [intros _ | reflexivity].
      apply todos_ou_nada_None in E. destruct E as [c [Hc Ha]].
      apply Hms in Hc. destruct Hc as [l [Hl [Hy Ec]]]. exists l. subst c.
      repeat split; assumption.
    + intros opcoes H. discriminate H.
Qed.

(** Whatever the two selectors offer, the filtered table has rows: the
    years come from the table and the months from the rows of the year.
    The "no data" branch of every section is reached by no selection. *)
Theorem selecao_nunca_vazia (df_estoque : DataFrame) (ano : FiltroAno)
    (opcoes : list string) (mes : string) :
  df_estoque <> [] ->
  In ano (todos_anos df_estoque) ->
  todos_meses df_estoque ano = Some opcoes ->
  In mes opcoes ->
  aplicar_filtros df_estoque ano mes <> [].
Proof.
  intros Hne Hano Hop Hmes. destruct ano as [|y].
  - simpl in Hop. inversion Hop; subst opcoes.
    destruct Hmes as [<- | []]. exact Hne.
  - apply todos_anos_In in Hano. destruct Hano as [l0 [Hl0 Hy0]].
    destruct (todos_meses_In df_estoque y opcoes mes Hop Hmes)
      as [-> | [l [m [Hl [Hy [Hm Hin]]]]]].
    + unfold aplicar_filtros. simpl. intros Hnil.
      assert (Hf : In l0 (filter (fun l => igual (ano_compra l) y) df_estoque))
        by (apply filter_In; split; [assumption | apply igual_Valor; assumption]).
      rewrite Hnil in Hf. destruct Hf.
    + destruct (num_mes_selecionado_conhecido m mes Hin) as [En Hnt].
      unfold aplicar_filtros. rewrite En.
      destruct (String.eqb_spec mes "Todos") as [|_]; [contradiction|].
      intros Hnil.
      assert (Hf : In l (filter (fun l => igual (mes_compra l) m)
                           (filter (fun l => igual (ano_compra l) y) df_estoque))).
      { apply filter_In. split; [|apply igual_Valor; assumption].
        apply filter_In. split; [assumption | apply igual_Valor; assumption]. }
      rewrite Hnil in Hf. destruct Hf.
Qed.

End Seletores.

(** ** The script from load to page *)

Section Roteiro.

Context {calendario : Calendario} {ordenacao : Ordenacao}.

Lemma carregar_dados_tem_data (arquivo : Leitura) (df : DataFrame)
    (avisos : list Elemento) :
  carregar_dados arquivo = (Some df, avisos) ->
  Forall tem_data df /\ df <> [] /\ avisos = [].
Proof.
  intros H. destruct arquivo as [| |d]; simpl in H; try discriminate.
  destruct (dropna (converter_datas d)) eqn:E; simpl in H; [discriminate|].
  inversion H; subst df avisos. split; [|split; [discriminate | reflexivity]].
  rewrite <- E. apply dropna_tem_data, converter_datas_convertidas.
Qed.

Lemma com_data_mesma (l : Linha) : com_data l (data_ultima_compra l) = l.
Proof. destruct l. reflexivity. Qed.

Lemma converter_datas_aux (df : DataFrame) (rs : list (option Timestamp)) :
  List.length rs = List.length df -> Forall tem_data df ->
  map (fun lr => com_data (fst lr)
                   (converter_celula (data_ultima_compra (fst lr)) (snd lr)))
      (combine df rs) = df.
Proof.
  intros Hlen Hdf. revert rs Hlen.
  induction Hdf as [|l df [t Hl] _ IH]; intros [|r rs] Hlen; simpl in *;
    try discriminate; [reflexivity|].
  rewrite IH by lia. f_equal. rewrite Hl. simpl. rewrite <- Hl. apply com_data_mesma.
Qed.

Lemma converter_datas_com_data (df : DataFrame) :
  Forall tem_data df -> converter_datas df = df.
Proof.
  intros H. unfold converter_datas. apply converter_datas_aux; [|exact H].
  rewrite to_datetime_length. apply length_map.
Qed.

Lemma dropna_com_data (df : DataFrame) : Forall tem_data df -> dropna df = df.
Proof.
  unfold dropna. induction 1 as [|l df [t Hl] _ IH]; simpl; [reflexivity|].
  rewrite Hl. simpl. rewrite IH. reflexivity.
Qed.

(** Lines 60 to 65 on a table that [carregar_dados] returned: converting
    and dropping a second time changes nothing (no row is lost, no date
    changes), and every row gets the year and the month of its timestamp,
    never a NaN. *)
Theorem extrair_ano_mes_apos_carga (arquivo : Leitura) (df : DataFrame)
    (avisos : list Elemento) :
  carregar_dados arquivo = (Some df, avisos) ->
  converter_datas df = df /\ dropna df = df /\
  extrair_ano_mes df
  = map (fun l => com_ano_mes l (ano_de (data_ultima_compra l))
                    (mes_de (data_ultima_compra l))) df /\
  Forall (fun l => exists t, data_ultima_compra l = Momento t /\
                             ano_compra l = Valor (dt_year t) /\
                             mes_compra l = Valor (dt_month t))
    (extrair_ano_mes df).
Proof.
  intros H. destruct (carregar_dados_tem_data _ _ _ H) as [Hd _].
  pose proof (converter_datas_com_data df Hd) as E1.
  pose proof (dropna_com_data df Hd) as E2.
  split; [exact E1|]. split; [exact E2|].
  unfold extrair_ano_mes. rewrite E1, E2. split; [reflexivity|].
  apply Forall_map. eapply Forall_impl; [|exact Hd].
  intros l [t Hl]. exists t. simpl. rewrite Hl. repeat split.
Qed.

Ltac ler_tabela H :=
  unfold bind, conteudo, mostrar; simpl; repeat (rewrite H; simpl).

Lemma visao_geral_mostra (m : Mundo) (r : nat) (df : DataFrame) :
  nth_error (objetos m) r = Some df ->
  visao_geral r m
  = Normal tt (mkMundo (objetos m)
                 (tela m ++ [st_metric_produtos (total_produtos df);
                             st_metric_itens (total_itens_fisicos df);
                             st_metric_valor (valor_total_estoque df)])).
Proof.
  intros H. unfold visao_geral. ler_tabela H. rewrite <- !app_assoc. reflexivity.
Qed.

Lemma top_fabricantes_acrescenta (m : Mundo) (r : nat) (df : DataFrame) :
  nth_error (objetos m) r = Some df ->
  exists es, top_fabricantes r m = Normal tt (mkMundo (objetos m) (tela m ++ es)).
Proof.
  intros H. unfold top_fabricantes. ler_tabela H.
  destruct (empty df); simpl; eexists; reflexivity.
Qed.

Lemma disponibilidade_acrescenta (m : Mundo) (r : nat) (df : DataFrame) (limite : Z) :
  nth_error (objetos m) r = Some df ->
  exists es, disponibilidade r limite m = Normal tt (mkMundo (objetos m) (tela m ++ es)).
Proof.
  intros H. unfold disponibilidade. ler_tabela H.
  destruct (empty df); simpl; [eexists; reflexivity|].
  destruct (empty (df_resumo_quantidades df)); simpl;
    destruct (empty (produtos_baixa_disponibilidade df limite)); simpl;
    rewrite <- app_assoc; eexists; reflexivity.
Qed.

Lemma avarias_acrescenta (m : Mundo) (r : nat) (df : DataFrame) :
  nth_error (objetos m) r = Some df ->
  exists es novos,
    avarias r m = Normal tt (mkMundo (objetos m ++ novos) (tela m ++ es)).
Proof.
  intros H. unfold avarias. ler_tabela H.
  destruct (empty df); simpl.
  { exists [st_info NenhumDado], []. rewrite app_nil_r. reflexivity. }
  unfold novo, alterar. simpl. rewrite nth_error_novo. simpl.
  destruct (empty (df_avariado df)); simpl.
  { eexists _, [_]. reflexivity. }
  rewrite nth_error_novo. simpl. rewrite trocar_novo, nth_error_novo. simpl.
  rewrite trocar_novo, nth_error_novo. simpl.
  eexists _, [_]. reflexivity.
Qed.

Lemma parado_acrescenta (m : Mundo) (r : nat) (df : DataFrame) (hoje_ : Timestamp)
    (limite : Z) :
  nth_error (objetos m) r = Some df ->
  exists es,
    parado r hoje_ limite m
    = Normal tt
        (mkMundo (if empty df then objetos m
                  else trocar r (atribuir_dias hoje_ df) (objetos m))
           (tela m ++ es)).
Proof.
  intros H. unfold parado. ler_tabela H.
  destruct (empty df) eqn:E; simpl; [eexists; reflexivity|].
  unfold alterar. rewrite H. simpl.
  rewrite nth_error_trocar by (apply nth_error_Some; congruence). simpl.
  destruct (empty (estoque_parado (atribuir_dias hoje_ df) limite)); simpl;
    eexists; reflexivity.
Qed.

Lemma criticos_acrescenta (m : Mundo) (r : nat) (df : DataFrame) (limite : Z) :
  nth_error (objetos m) r = Some df ->
  exists es, criticos r limite m = Normal tt (mkMundo (objetos m) (tela m ++ es)).
Proof.
  intros H. unfold criticos. ler_tabela H.
  destruct (empty df); simpl; [eexists; reflexivity|].
  destruct (empty (produtos_criticos df limite)); simpl;
    rewrite <- ?app_assoc; eexists; reflexivity.
Qed.

Lemma desempenho_acrescenta (m : Mundo) (r : nat) (df : DataFrame) :
  nth_error (objetos m) r = Some df ->
  exists es, desempenho r m = Normal tt (mkMundo (objetos m) (tela m ++ es)).
Proof.
  intros H. unfold desempenho. ler_tabela H.
  destruct (empty df); simpl; eexists; reflexivity.
Qed.

(** The table [df_filtrado] holds once the stale-stock section has run. *)
Definition com_dias_se_ha_dados (hoje_ : Timestamp) (df : DataFrame) : DataFrame :=
  if empty df then df else atribuir_dias hoje_ df.

(** All the sections in a row: they end normally, the page grows by the
    three metrics of the table and what the sections add, the damage
    section leaves its copy behind, and of the tables that were there
    only [df_filtrado] is changed, by the stale-stock section. *)
Lemma secoes_sobre_a_tabela (m : Mundo) (r : nat) (df : DataFrame) (e : Entradas) :
  nth_error (objetos m) r = Some df ->
  exists novos resto,
    secoes r e m
    = Normal tt
        (mkMundo (if empty df then objetos m ++ novos
                  else trocar r (atribuir_dias (hoje e) df) (objetos m ++ novos))
           (tela m ++ [st_metric_produtos (total_produtos df);
                       st_metric_itens (total_itens_fisicos df);
                       st_metric_valor (valor_total_estoque df)] ++ resto)).
Proof.
  intros H. unfold secoes.
  unfold bind at 1. rewrite (visao_geral_mostra m r df H).
  set (m1 := mkMundo (objetos m) _).
  assert (H1 : nth_error (objetos m1) r = Some df) by exact H.
  unfold bind at 1. destruct (top_fabricantes_acrescenta m1 r df H1) as [e2 E2]. rewrite E2.
  set (m2 := mkMundo (objetos m1) _).
  assert (H2 : nth_error (objetos m2) r = Some df) by exact H.
  unfold bind at 1.
  destruct (disponibilidade_acrescenta m2 r df (limite_disponibilidade e) H2) as [e3 E3].
  rewrite E3. set (m3 := mkMundo (objetos m2) _).
  assert (H3 : nth_error (objetos m3) r = Some df) by exact H.
  unfold bind at 1. destruct (avarias_acrescenta m3 r df H3) as [e4 [novos E4]].
  rewrite E4. set (m4 := mkMundo (objetos m3 ++ novos) _).
  assert (Hr : (r < List.length (objetos m))%nat) by (apply nth_error_Some; congruence).
  assert (H4 : nth_error (objetos m4) r = Some df).
  { simpl. rewrite nth_error_app1 by exact Hr. exact H. }
  unfold bind at 1.
  destruct (parado_acrescenta m4 r df (hoje e) (limite_dias_compra e) H4) as [e5 E5].
  rewrite E5. set (m5 := mkMundo _ (tela m4 ++ e5)).
  assert (H5 : nth_error (objetos m5) r = Some (com_dias_se_ha_dados (hoje e) df)).
  { unfold com_dias_se_ha_dados. simpl. destruct (empty df); [exact H4|].
    apply nth_error_trocar. rewrite length_app. simpl. lia. }
  unfold bind at 1.
  destruct (criticos_acrescenta m5 r _ (min_disponivel e) H5) as [e6 E6]. rewrite E6.
  set (m6 := mkMundo (objetos m5) _).
  assert (H6 : nth_error (objetos m6) r = Some (com_dias_se_ha_dados (hoje e) df))
    by exact H5.
  destruct (desempenho_acrescenta m6 r _ H6) as [e7 E7]. rewrite E7.
  exists novos, (e2 ++ e3 ++ e4 ++ e5 ++ e6 ++ e7).
  simpl. rewrite <- !app_assoc. reflexivity.
Qed.

(** The whole script after a successful load. Building the month selector
    raises the KeyError when it has a month without abbreviation. Whenever
    the script runs to its end,
    - no table that was there before is changed;
    - [df_estoque] holds the loaded table with the year and month columns,
      whatever ran after line 65;
    - [df_filtrado] is another object and holds the filtered rows, with
      the column of days if there are rows;
    - the page shows the three metrics first, the first two being the
      product count and the item total of the filtered rows. *)
Theorem painel_com_dados (arquivo : Leitura) (df : DataFrame)
    (avisos : list Elemento) (e : Entradas) (m : Mundo) :
  carregar_dados arquivo = (Some df, avisos) ->
  (todos_meses (extrair_ano_mes df) (ano_filtro e) = None ->
   painel arquivo e m = Levanta KeyError) /\
  (forall m',
     painel arquivo e m = Normal tt m' ->
     exists df_filtrado valor resto,
       (forall i, (i < List.length (objetos m))%nat ->
                  nth_error (objetos m') i = nth_error (objetos m) i) /\
       nth_error (objetos m') (List.length (objetos m)) = Some (extrair_ano_mes df) /\
       (List.length (objetos m) < df_filtrado)%nat /\
       nth_error (objetos m') df_filtrado
       = Some (com_dias_se_ha_dados (hoje e)
                 (aplicar_filtros (extrair_ano_mes df) (ano_filtro e) (mes_filtro e))) /\
       tela m'
       = tela m
         ++ [st_metric_produtos
               (total_produtos
                  (aplicar_filtros (extrair_ano_mes df) (ano_filtro e) (mes_filtro e)));
             st_metric_itens
               (total_itens_fisicos
                  (aplicar_filtros (extrair_ano_mes df) (ano_filtro e) (mes_filtro e)));
             st_metric_valor valor]
         ++ resto).
Proof.
  intros H. destruct (carregar_dados_tem_data _ _ _ H) as [_ [_ Ea]]. subst avisos.
  set (est := extrair_ano_mes df).
  set (m3 := mkMundo (objetos m ++ [est]) (tela m ++ [])).
  assert (Hp : painel arquivo e m
               = match todos_meses est (ano_filtro e) with
                 | None => Levanta KeyError
                 | Some _ =>
                     bind (filtrar (List.length (objetos m)) (ano_filtro e) (mes_filtro e))
                       (fun df_filtrado => secoes df_filtrado e) m3
                 end).
  { unfold painel. rewrite H. unfold bind at 1. unfold mostrar_todos.
    unfold bind at 1. rewrite novo_ok. simpl objetos. simpl tela.
    unfold bind at 1. unfold alterar. simpl objetos. rewrite nth_error_novo.
    simpl tela. rewrite trocar_novo.
    unfold bind at 1. unfold conteudo. simpl objetos. rewrite nth_error_novo.
    fold est. destruct (todos_meses est (ano_filtro e)); reflexivity. }
  rewrite Hp. split.
  - intros E. rewrite E. reflexivity.
  - intros m' Hm'.
    destruct (todos_meses est (ano_filtro e)) as [ops|]; [|discriminate Hm'].
    assert (H3 : nth_error (objetos m3) (List.length (objetos m)) = Some est)
      by apply nth_error_novo.
    destruct (filtrar_aplicar_filtros m3 _ est (ano_filtro e) (mes_filtro e) H3)
      as [dfl [n1 [Ef [Hle Hn]]]].
    unfold bind in Hm'. rewrite Ef in Hm'.
    set (f := aplicar_filtros est (ano_filtro e) (mes_filtro e)) in *.
    set (m4 := mkMundo (objetos m3 ++ n1) (tela m3)) in *.
    destruct (secoes_sobre_a_tabela m4 dfl f e Hn) as [n2 [resto Es]].
    rewrite Es in Hm'. injection Hm' as Hm'. subst m'.
    simpl objetos in *. simpl tela in *.
    rewrite length_app in Hle. simpl in Hle.
    assert (Hdfl : (dfl < List.length (((objetos m ++ [est]) ++ n1) ++ n2))%nat).
    { rewrite length_app. apply Nat.lt_lt_add_r. apply nth_error_Some. congruence. }
    exists dfl, (valor_total_estoque f), resto.
    assert (Hold : forall i, (i <= List.length (objetos m))%nat ->
              nth_error (if empty f then ((objetos m ++ [est]) ++ n1) ++ n2
                         else trocar dfl (atribuir_dias (hoje e) f)
                                (((objetos m ++ [est]) ++ n1) ++ n2)) i
              = nth_error (objetos m ++ [est]) i).
    { intros i Hi.
      assert (Happ : nth_error (((objetos m ++ [est]) ++ n1) ++ n2) i
                     = nth_error (objetos m ++ [est]) i).
      { rewrite <- app_assoc. apply nth_error_app1. rewrite length_app. simpl. lia. }
      destruct (empty f); [exact Happ|].
      rewrite nth_error_trocar_outro by lia. exact Happ. }
    split; [|split; [|split; [|split]]].
    + intros i Hi. rewrite Hold by lia. apply nth_error_app1, Hi.
    + rewrite Hold by lia. apply nth_error_novo.
    + lia.
    + unfold com_dias_se_ha_dados. destruct (empty f).
      * rewrite nth_error_app1 by (apply nth_error_Some; congruence). exact Hn.
      * apply nth_error_trocar, Hdfl.
    + rewrite app_nil_r. reflexivity.
Qed.

End Roteiro.

(** ** Totals and grouped tables *)

Section Agregados.

Context {calendario : Calendario} {ordenacao : Ordenacao}.

(** *** int64 sums *)

Lemma int64_pequeno (z : Z) : - 2 ^ 63 <= z < 2 ^ 63 -> int64 z = z.
Proof. intros H. unfold int64. rewrite Z.mod_small by lia. lia. Qed.

Lemma int64_mais (x y : Z) : int64 (x + int64 y) = int64 (x + y).
Proof.
  unfold int64.
  replace (x + ((y + 2 ^ 63) mod 2 ^ 64 - 2 ^ 63) + 2 ^ 63)
    with (x + (y + 2 ^ 63) mod 2 ^ 64) by lia.
  rewrite Z.add_mod_idemp_r by lia.
  replace (x + (y + 2 ^ 63)) with (x + y + 2 ^ 63) by lia. reflexivity.
Qed.

(** Wrapping after every addition or once at the end is the same. *)
Lemma soma_int64 (l : list Z) : soma l = int64 (somatorio l).
Proof.
  induction l as [|x t IH]; [reflexivity|].
  change (soma (x :: t)) with (int64 (x + soma t)).
  rewrite IH, int64_mais. reflexivity.
Qed.

Lemma somatorio_perm (l1 l2 : list Z) :
  Permutation l1 l2 -> somatorio l1 = somatorio l2.
Proof. unfold somatorio. induction 1; simpl; lia. Qed.

Lemma somatorio_app (l1 l2 : list Z) :
  somatorio (l1 ++ l2) = somatorio l1 + somatorio l2.
Proof. unfold somatorio. induction l1 as [|x t IH]; simpl; [reflexivity | rewrite IH; lia]. Qed.

Lemma somatorio_nao_negativo (l : list Z) :
  Forall (fun x => 0 <= x) l -> 0 <= somatorio l.
Proof. unfold somatorio. induction 1; simpl; lia. Qed.

Lemma somatorio_filter {A : Type} (f : A -> Z) (p : A -> bool) (l : list A) :
  Forall (fun x => 0 <= f x) l ->
  0 <= somatorio (map f (filter p l)) <= somatorio (map f l).
Proof.
  unfold somatorio. induction 1 as [|x t Hx _ IH]; simpl; [lia|].
  destruct (p x); simpl; lia.
Qed.

Lemma somatorio_mais {A : Type} (g h : A -> Z) (l : list A) :
  somatorio (map (fun k => g k + h k) l) = somatorio (map g l) + somatorio (map h l).
Proof. unfold somatorio. induction l as [|x t IH]; simpl; [reflexivity | rewrite IH; lia]. Qed.

Lemma somatorio_indicador (k0 : string) (v : Z) (ks : list string) :
  NoDup ks ->
  somatorio (map (fun k => if String.eqb k0 k then v else 0) ks)
  = if in_dec string_dec k0 ks then v else 0.
Proof.
  induction 1 as [|k ks Hk Hnd IH]; [reflexivity|].
  change (somatorio (map (fun k => if String.eqb k0 k then v else 0) (k :: ks)))
    with ((if String.eqb k0 k then v else 0)
          + somatorio (map (fun k => if String.eqb k0 k then v else 0) ks)).
  rewrite IH. destruct (in_dec string_dec k0 (k :: ks)) as [Hin | Hout].
  - destruct Hin as [E | Hin].
    + subst k0. rewrite String.eqb_refl.
      destruct (in_dec string_dec k ks) as [Hin|_]; [contradiction | lia].
    + destruct (String.eqb_spec k0 k) as [E|_]; [subst k0; contradiction|].
      destruct (in_dec string_dec k0 ks) as [_|C]; [lia | contradiction].
  - destruct (String.eqb_spec k0 k) as [E|_].
    + exfalso. apply Hout. left. symmetry. exact E.
    + destruct (in_dec string_dec k0 ks) as [Hin|_]; [|lia].
      exfalso. apply Hout. right. exact Hin.
Qed.

Lemma somatorio_zeros {A : Type} (l : list A) : somatorio (map (fun _ => 0) l) = 0.
Proof. unfold somatorio. induction l as [|x t IH]; simpl; [reflexivity | exact IH]. Qed.

(** Grouping by a key that every row has loses nothing and counts nothing
    twice: as numbers, the sums of the groups add up to the sum over the
    table. *)
Lemma somatorio_por_chave (coluna : Linha -> string) (f : Linha -> Z)
    (ks : list string) (df : DataFrame) :
  NoDup ks -> (forall l, In l df -> In (coluna l) ks) ->
  somatorio (map (fun k => somatorio (map f (filter (fun l => String.eqb (coluna l) k) df))) ks)
  = somatorio (map f df).
Proof.
  intros Hnd. induction df as [|l t IH]; intros Hin.
  - simpl. apply somatorio_zeros.
  - rewrite (map_ext _ (fun k => (if String.eqb (coluna l) k then f l else 0)
                                 + somatorio (map f (filter (fun l => String.eqb (coluna l) k) t)))).
    + rewrite somatorio_mais, (somatorio_indicador _ _ _ Hnd), IH.
      * destruct (in_dec string_dec (coluna l) ks) as [_|C]; [reflexivity|].
        exfalso. apply C, Hin. left. reflexivity.
      * intros x Hx. apply Hin. right. exact Hx.
    + intros k. simpl. destruct (String.eqb (coluna l) k); reflexivity.
Qed.

(** Without a negative cell and with a total below 2^63 no addition
    overflows. *)
Lemma soma_sem_estouro (l : list Z) :
  Forall (fun x => 0 <= x) l -> somatorio l < 2 ^ 63 -> soma l = somatorio l.
Proof.
  intros Hnn Hlim. rewrite soma_int64. apply int64_pequeno.
  pose proof (somatorio_nao_negativo l Hnn). lia.
Qed.

(** *** Grouped tables *)

Lemma groupby_fst (coluna : Linha -> string) (df : DataFrame) :
  map fst (groupby coluna df) = chaves coluna df.
Proof. unfold groupby. rewrite map_map. simpl. apply map_id. Qed.

Lemma groupby_In (coluna : Linha -> string) (df : DataFrame) (g : string * DataFrame) :
  In g (groupby coluna df) ->
  In (fst g) (map coluna df) /\
  snd g = filter (fun l => String.eqb (coluna l) (fst g)) df.
Proof.
  unfold groupby. intros H. apply in_map_iff in H. destruct H as [k [E Hk]].
  subst g. split; [apply chaves_In, Hk | reflexivity].
Qed.

(** The comparison table of section 1: one row for each product named in
    the filtered table, no product twice, in ascending order of the name;
    a row holds the four int64 sums over the rows of its product. *)
Theorem df_resumo_quantidades_correto (df_filtrado : DataFrame) :
  NoDup (map r_produto (df_resumo_quantidades df_filtrado)) /\
  StronglySorted (fun a b => String.leb a b = true)
    (map r_produto (df_resumo_quantidades df_filtrado)) /\
  (forall p, In p (map r_produto (df_resumo_quantidades df_filtrado)) <->
             In p (map produto df_filtrado)) /\
  (forall r, In r (df_resumo_quantidades df_filtrado) ->
     let linhas := filter (fun l => String.eqb (produto l) (r_produto r)) df_filtrado in
     r_quantidade_fisica r = soma (map quantidade_fisica linhas) /\
     r_quantidade_solicitada r = soma (map quantidade_solicitada linhas) /\
     r_quantidade_reservada r = soma (map quantidade_reservada linhas) /\
     r_quantidade_disponivel r = soma (map quantidade_disponivel linhas)).
Proof.
  assert (Hk : map r_produto (df_resumo_quantidades df_filtrado)
               = chaves produto df_filtrado).
  { unfold df_resumo_quantidades. rewrite map_map. simpl. apply groupby_fst. }
  rewrite Hk.
  split; [apply chaves_NoDup|]. split; [apply chaves_sorted|].
  split; [intros p; apply chaves_In|].
  intros r Hr. unfold df_resumo_quantidades in Hr. apply in_map_iff in Hr.
  destruct Hr as [g [E Hg]]. subst r. apply groupby_In in Hg. destruct Hg as [_ Hg].
  destruct g as [k ls]. simpl in Hg. subst ls. intros linhas. repeat split.
Qed.

(** The performance table of section 5, as displayed: its rows are the
    manufacturers named in the filtered table, each once, in descending
    order of the summed [quantidade fisica]; a row holds the four int64
    sums over the rows of its manufacturer. *)
Theorem df_desempenho_fabricante_correto (df_filtrado : DataFrame) :
  let exibida :=
    sort_values_desc total_quantidade_fisica (df_desempenho_fabricante df_filtrado) in
  StronglySorted (fun a b => total_quantidade_fisica b <= total_quantidade_fisica a)
    exibida /\
  NoDup (map d_fabricante exibida) /\
  (forall f, In f (map d_fabricante exibida) <-> In f (map fabricante df_filtrado)) /\
  (forall d, In d exibida ->
     let linhas := filter (fun l => String.eqb (fabricante l) (d_fabricante d)) df_filtrado in
     total_quantidade_fisica d = soma (map quantidade_fisica linhas) /\
     total_quantidade_avariada d = soma (map quantidade_avariada linhas) /\
     total_quantidade_disponivel d = soma (map quantidade_disponivel linhas) /\
     total_quantidade_solicitada d = soma (map quantidade_solicitada linhas)).
Proof.
  intros exibida.
  assert (Hp : Permutation exibida (df_desempenho_fabricante df_filtrado))
    by apply sort_values_perm.
  assert (Hk : map d_fabricante (df_desempenho_fabricante df_filtrado)
               = chaves fabricante df_filtrado).
  { unfold df_desempenho_fabricante. rewrite map_map. simpl. apply groupby_fst. }
  split; [apply sort_values_sorted|].
  split.
  { eapply Permutation_NoDup; [apply Permutation_map, Permutation_sym, Hp|].
    rewrite Hk. apply chaves_NoDup. }
  split.
  { intros f. rewrite <- (chaves_In fabricante), <- Hk.
    split; apply Permutation_in; apply Permutation_map;
      [exact Hp | apply Permutation_sym, Hp]. }
  intros d Hd. apply (Permutation_in _ Hp) in Hd.
  unfold df_desempenho_fabricante in Hd. apply in_map_iff in Hd.
  destruct Hd as [g [E Hg]]. subst d. apply groupby_In in Hg. destruct Hg as [_ Hg].
  destruct g as [k ls]. simpl in Hg. subst ls. intros linhas. repeat split.
Qed.

Lemma unique_length_le {A : Type} (eqb : A -> A -> bool) (l : list A) :
  (List.length (unique eqb l) <= List.length l)%nat.
Proof.
  induction l as [|x t IH]; simpl; [lia|].
  pose proof (filter_length_le (fun y => negb (eqb y x)) (unique eqb t)). lia.
Qed.

(** The overview: the product count is the number of rows of the
    comparison table, between 0 and the number of rows of the filtered
    table; the item total is the sum of the column reduced to int64, and
    is the sum itself when that fits; and neither metric depends on the
    order of the rows. *)
Theorem visao_geral_totais (df_filtrado : DataFrame) :
  total_produtos df_filtrado
  = Z.of_nat (List.length (df_resumo_quantidades df_filtrado)) /\
  0 <= total_produtos df_filtrado <= Z.of_nat (List.length df_filtrado) /\
  total_itens_fisicos df_filtrado
  = int64 (somatorio (map quantidade_fisica df_filtrado)) /\
  (- 2 ^ 63 <= somatorio (map quantidade_fisica df_filtrado) < 2 ^ 63 ->
   total_itens_fisicos df_filtrado = somatorio (map quantidade_fisica df_filtrado)) /\
  (forall df', Permutation df_filtrado df' ->
     total_produtos df' = total_produtos df_filtrado /\
     total_itens_fisicos df' = total_itens_fisicos df_filtrado).
Proof.
  unfold total_produtos, total_itens_fisicos, nunique.
  split.
  { unfold df_resumo_quantidades, groupby. rewrite !length_map.
    f_equal. symmetry. apply Permutation_length, ordenar_perm. }
  split.
  { pose proof (unique_length_le String.eqb (map produto df_filtrado)) as H.
    rewrite length_map in H. lia. }
  split; [apply soma_int64|].
  split.
  { intros H. rewrite soma_int64. apply int64_pequeno, H. }
  intros df' Hp. split.
  - f_equal. apply Permutation_length. apply NoDup_Permutation.
    + apply unique_NoDup, String.eqb_eq.
    + apply unique_NoDup, String.eqb_eq.
    + intros p. rewrite !(unique_In String.eqb String.eqb_eq).
      split; apply Permutation_in; apply Permutation_map;
        [apply Permutation_sym, Hp | exact Hp].
  - rewrite !soma_int64. f_equal.
    apply somatorio_perm, Permutation_map, Permutation_sym, Hp.
Qed.

(** When no [quantidade fisica] is negative and the column adds up to
    less than 2^63, no sum of the chart overflows: every bar is the sum of
    its manufacturer's rows as a number and is not negative, and the bars
    add up to at most the item total of the overview. *)
Theorem top_10_parte_do_total (df_filtrado : DataFrame) :
  Forall (fun l => 0 <= quantidade_fisica l) df_filtrado ->
  somatorio (map quantidade_fisica df_filtrado) < 2 ^ 63 ->
  Forall (fun g =>
            snd g = somatorio (map quantidade_fisica
                                 (filter (fun l => String.eqb (fabricante l) (fst g))
                                    df_filtrado))
            /\ 0 <= snd g)
    (df_top_10_fabricantes df_filtrado) /\
  somatorio (map snd (df_top_10_fabricantes df_filtrado))
  <= total_itens_fisicos df_filtrado.
Proof.
  intros Hpos Hlim. unfold df_top_10_fabricantes, total_itens_fisicos.
  set (g := df_agrupado_fabricante df_filtrado).
  set (s := sort_values_desc snd g).
  assert (Hp : Permutation s g) by apply sort_values_perm.
  assert (Hcol : Forall (fun x => 0 <= x) (map quantidade_fisica df_filtrado))
    by (apply Forall_map, Hpos).
  assert (Hgrupo : forall k,
            total_do_fabricante df_filtrado k
            = somatorio (map quantidade_fisica
                           (filter (fun l => String.eqb (fabricante l) k) df_filtrado))
            /\ 0 <= total_do_fabricante df_filtrado k).
  { intros k. unfold total_do_fabricante.
    pose proof (somatorio_filter quantidade_fisica
                  (fun l => String.eqb (fabricante l) k) df_filtrado Hpos) as Hf.
    rewrite soma_sem_estouro; [split; [reflexivity | lia] | | lia].
    apply Forall_map, Forall_forall. intros l Hl. apply filter_In in Hl.
    rewrite Forall_forall in Hpos. apply Hpos, Hl. }
  assert (Hg : somatorio (map snd g) = somatorio (map quantidade_fisica df_filtrado)).
  { unfold g. rewrite df_agrupado_fabricante_por_chave, map_map. simpl.
    rewrite (map_ext _ (fun k => somatorio (map quantidade_fisica
                                   (filter (fun l => String.eqb (fabricante l) k)
                                      df_filtrado))))
      by (intros k; apply Hgrupo).
    apply somatorio_por_chave.
    - apply chaves_NoDup.
    - intros l Hl. apply chaves_In. apply in_map, Hl. }
  assert (Hs : somatorio (map snd s) = somatorio (map quantidade_fisica df_filtrado)).
  { rewrite <- Hg. apply somatorio_perm, Permutation_map, Hp. }
  assert (Hbar : Forall (fun x =>
                    snd x = somatorio (map quantidade_fisica
                                         (filter (fun l => String.eqb (fabricante l) (fst x))
                                            df_filtrado))
                    /\ 0 <= snd x) s).
  { eapply Permutation_Forall; [apply Permutation_sym, Hp|].
    unfold g. rewrite df_agrupado_fabricante_por_chave. apply Forall_map.
    apply Forall_forall. intros k _. simpl. apply Hgrupo. }
  rewrite <- (firstn_skipn 10 s) in Hs, Hbar.
  rewrite map_app, somatorio_app in Hs. apply Forall_app in Hbar.
  destruct Hbar as [Hb1 Hb2].
  split; [exact Hb1|].
  rewrite (soma_sem_estouro _ Hcol Hlim).
  assert (0 <= somatorio (map snd (skipn 10 s))).
  { apply somatorio_nao_negativo, Forall_map.
    eapply Forall_impl; [|exact Hb2]. intros x [_ Hx]. exact Hx. }
  lia.
Qed.


End Agregados.

(** ** Formatting *)

(** The three replaces of lines 41 and 115, with the character that
    stands in for the comma meanwhile. *)
Definition cadeia (marcador : ascii) (s : string) : string :=
  replace marcador "." (replace "." "," (replace "," marcador s)).

(** What the three replaces do to one character. *)
Definition troca (marcador c : ascii) : ascii :=
  let c1 := if Ascii.eqb c "," then marcador else c in
  let c2 := if Ascii.eqb c1 "." then ","%char else c1 in
  if Ascii.eqb c2 marcador then "."%char else c2.

Definition ocorre (c : ascii) (s : string) : Prop :=
  In c (list_ascii_of_string s).

Definition algarismos : list ascii :=
  ["0"; "1"; "2"; "3"; "4"; "5"; "6"; "7"; "8"; "9"]%char.

Definition so_algarismos (l : list ascii) : Prop :=
  Forall (fun c => In c algarismos) l.

Lemma replace_app (a b : ascii) (s1 s2 : string) :
  replace a b (s1 ++ s2)%string = (replace a b s1 ++ replace a b s2)%string.
Proof.
  induction s1 as [|c s1 IH]; simpl; [reflexivity | rewrite IH; reflexivity].
Qed.

Lemma cadeia_app (p : ascii) (s1 s2 : string) :
  cadeia p (s1 ++ s2)%string = (cadeia p s1 ++ cadeia p s2)%string.
Proof. unfold cadeia. rewrite !replace_app. reflexivity. Qed.

Lemma cadeia_lista (p : ascii) (l : list ascii) :
  cadeia p (string_of_list_ascii l) = string_of_list_ascii (map (troca p) l).
Proof.
  unfold cadeia. induction l as [|c l IH]; simpl; [reflexivity|].
  rewrite IH. reflexivity.
Qed.

Lemma troca_outro (p c : ascii) :
  c <> ","%char -> c <> "."%char -> c <> p -> troca p c = c.
Proof.
  intros H1 H2 H3. unfold troca.
  destruct (Ascii.eqb_spec c ","); [contradiction|].
  destruct (Ascii.eqb_spec c "."); [contradiction|].
  destruct (Ascii.eqb_spec c p); [contradiction | reflexivity].
Qed.

Lemma troca_algarismo (p c : ascii) :
  ~ In p algarismos -> In c algarismos -> troca p c = c.
Proof.
  intros Hp Hc. apply troca_outro.
  - intros ->. simpl in Hc. intuition discriminate.
  - intros ->. simpl in Hc. intuition discriminate.
  - intros ->. contradiction.
Qed.

Lemma troca_virgula (p : ascii) : p <> "."%char -> troca p "," = "."%char.
Proof.
  intros Hp. unfold troca.
  change (Ascii.eqb "," ",") with true. cbv beta iota zeta.
  destruct (Ascii.eqb_spec p "."); [contradiction|].
  rewrite Ascii.eqb_refl. reflexivity.
Qed.

Lemma troca_ponto (p : ascii) : p <> ","%char -> troca p "." = ","%char.
Proof.
  intros Hp. unfold troca.
  change (Ascii.eqb "." ",") with false. cbv beta iota zeta.
  change (Ascii.eqb "." ".") with true. cbv beta iota zeta.
  destruct (Ascii.eqb_spec "," p) as [E|_]; [symmetry in E; contradiction | reflexivity].
Qed.

Lemma agrupar_rev_troca (p : ascii) (n : nat) (l : list ascii) :
  p <> "."%char -> ~ In p algarismos -> so_algarismos l ->
  map (troca p) (agrupar_rev "," n l) = agrupar_rev "." n l.
Proof.
  intros Hp Hd Hl. revert n. induction Hl as [|c r Hc Hr IH]; intros n; [reflexivity|].
  destruct r as [|c' r'].
  - simpl. rewrite (troca_algarismo p c Hd Hc). reflexivity.
  - change (agrupar_rev "," n (c :: c' :: r'))
      with (if (n =? 2)%nat then c :: ","%char :: agrupar_rev "," 0 (c' :: r')
            else c :: agrupar_rev "," (S n) (c' :: r')).
    change (agrupar_rev "." n (c :: c' :: r'))
      with (if (n =? 2)%nat then c :: "."%char :: agrupar_rev "." 0 (c' :: r')
            else c :: agrupar_rev "." (S n) (c' :: r')).
    destruct (n =? 2)%nat; cbn [map];
      rewrite (troca_algarismo p c Hd Hc), ?(troca_virgula p Hp), IH; reflexivity.
Qed.

Lemma so_algarismos_uint (d : Decimal.uint) :
  so_algarismos (list_ascii_of_string (NilEmpty.string_of_uint d)).
Proof.
  induction d; simpl; constructor; try assumption; simpl; tauto.
Qed.

Lemma so_algarismos_digitos (n : Z) :
  so_algarismos (list_ascii_of_string (digitos n)).
Proof.
  unfold digitos, NilZero.string_of_uint.
  destruct (N.to_uint (Z.to_N n)) eqn:E; try (rewrite <- E; apply so_algarismos_uint).
  repeat constructor.
Qed.

Lemma cadeia_agrupar (p : ascii) (s : string) :
  p <> "."%char -> ~ In p algarismos -> so_algarismos (list_ascii_of_string s) ->
  cadeia p (agrupar "," s) = agrupar "." s.
Proof.
  intros Hp Hd Hs. unfold agrupar. rewrite cadeia_lista, map_rev.
  rewrite agrupar_rev_troca; [reflexivity | assumption | assumption |].
  unfold so_algarismos in *. apply Forall_rev, Hs.
Qed.

Lemma digito_de_algarismo (k : Z) : 0 <= k <= 9 -> In (digito_de k) algarismos.
Proof.
  intros H.
  assert (E : k = 0 \/ k = 1 \/ k = 2 \/ k = 3 \/ k = 4 \/ k = 5 \/ k = 6 \/ k = 7
              \/ k = 8 \/ k = 9) by lia.
  repeat (destruct E as [E | E]; [subst k; simpl; tauto|]).
  subst k; simpl; tauto.
Qed.

Lemma cadeia_cons (p c : ascii) (r : string) :
  cadeia p (String c r) = String (troca p c) (cadeia p r).
Proof. reflexivity. Qed.

Lemma cadeia_decimais (p : ascii) (c : Z) :
  p <> ","%char -> ~ In p algarismos -> 0 <= c < 100 ->
  cadeia p (String "." (dois_digitos c)) = String "," (dois_digitos c).
Proof.
  intros Hp Hd Hc. unfold dois_digitos. rewrite !cadeia_cons.
  rewrite (troca_ponto p Hp).
  rewrite !(troca_algarismo p _ Hd); try reflexivity; apply digito_de_algarismo.
  - pose proof (Z.mod_pos_bound c 10). lia.
  - assert (0 <= c / 10) by (apply Z.div_pos; lia).
    assert (c / 10 < 10) by (apply Z.div_lt_upper_bound; lia). lia.
Qed.

(** The three replaces turn Python's number into the Brazilian one. *)
Lemma cadeia_formato_f2 (p : ascii) (q : Q) :
  p <> ","%char -> p <> "."%char -> p <> "-"%char -> ~ In p algarismos ->
  cadeia p (formato_f2 "," "." q) = formato_f2 "." "," q.
Proof.
  intros Hv Hp Hm Hd. unfold formato_f2. rewrite !cadeia_app.
  rewrite cadeia_agrupar by (try assumption; apply so_algarismos_digitos).
  rewrite cadeia_decimais
    by (try assumption; apply Z.mod_pos_bound; lia).
  destruct (Qnum q <? 0); [|reflexivity].
  rewrite cadeia_cons, troca_outro; [reflexivity | discriminate | discriminate|].
  intros E. apply Hm. symmetry. exact E.
Qed.

Lemma cadeia_fixa (p : ascii) (s : string) :
  cadeia p s = s <-> Forall (fun c => troca p c = c) (list_ascii_of_string s).
Proof.
  induction s as [|c r IH]; simpl list_ascii_of_string.
  - split; [constructor | reflexivity].
  - rewrite cadeia_cons. split.
    + intros H. injection H as Hc Hr. constructor; [exact Hc | apply IH, Hr].
    + intros H. inversion H as [|? ? Hc Hr]; subst.
      rewrite Hc. f_equal. apply IH, Hr.
Qed.

Lemma troca_x_fixa (c : ascii) :
  troca "x" c = c <-> c <> ","%char /\ c <> "."%char /\ c <> "x"%char.
Proof.
  split.
  - intros H. repeat split; intros ->; discriminate H.
  - intros [H1 [H2 H3]]. apply troca_outro; assumption.
Qed.

(** [formatar_moeda] on a finite amount: the amount comes out with [.]
    between the thousands and [,] before the two decimals. The replaces
    run over the currency symbol too: it is kept as it is exactly when it
    has no comma, no full stop and no [x]; otherwise these are turned into
    [.], [,] and [.]. An infinite amount reads [inf]. *)
Theorem formatar_moeda_separadores (q : Q) (simbolo_moeda : string) :
  formatar_moeda (Numero (f_num q)) simbolo_moeda
  = (cadeia "x" simbolo_moeda ++ " " ++ formato_f2 "." "," q)%string /\
  (cadeia "x" simbolo_moeda = simbolo_moeda <->
   ~ ocorre "," simbolo_moeda /\ ~ ocorre "." simbolo_moeda
   /\ ~ ocorre "x" simbolo_moeda) /\
  formatar_moeda (Numero f_inf) simbolo_moeda
  = (cadeia "x" simbolo_moeda ++ " inf")%string /\
  formatar_moeda (Numero f_neg_inf) simbolo_moeda
  = (cadeia "x" simbolo_moeda ++ " -inf")%string.
Proof.
  split.
  { unfold formatar_moeda. simpl isna. cbv iota.
    change (replace "x" "." (replace "." "," (replace "," "x"
              (simbolo_moeda ++ " " ++ format_2f (f_num q))%string)))
      with (cadeia "x" (simbolo_moeda ++ " " ++ formato_f2 "," "." q)%string).
    rewrite !cadeia_app.
    rewrite cadeia_formato_f2; try discriminate.
    - reflexivity.
    - simpl. intuition discriminate. }
  split.
  { rewrite cadeia_fixa. unfold ocorre. rewrite Forall_forall. split.
    - intros H. repeat split; intros Hin; apply H in Hin; discriminate Hin.
    - intros [H1 [H2 H3]] c Hc. apply troca_x_fixa.
      repeat split; intros ->; contradiction. }
  split.
  - unfold formatar_moeda. simpl isna. cbv iota.
    change (replace "x" "." (replace "." "," (replace "," "x"
              (simbolo_moeda ++ " " ++ format_2f f_inf)%string)))
      with (cadeia "x" (simbolo_moeda ++ " inf")%string).
    rewrite cadeia_app. reflexivity.
  - unfold formatar_moeda. simpl isna. cbv iota.
    change (replace "x" "." (replace "." "," (replace "," "x"
              (simbolo_moeda ++ " " ++ format_2f f_neg_inf)%string)))
      with (cadeia "x" (simbolo_moeda ++ " -inf")%string).
    rewrite cadeia_app. reflexivity.
Qed.

(** The item total of the overview, for totals that a float holds exactly:
    the digits in groups of three with [.] between them, and no decimals. *)
Theorem texto_itens_pontos (total : Z) :
  Z.abs total <= 2 ^ 53 ->
  texto_itens total
  = ((if (total <? 0)%Z then "-" else "") ++ agrupar "." (digitos (Z.abs total)))%string.
Proof.
  intros _. unfold texto_itens, format_0f.
  change (replace "X" "." (replace "." "," (replace "," "X"
            ((if (total <? 0)%Z then "-" else "") ++ agrupar "," (digitos (Z.abs total)))%string)))
    with (cadeia "X" ((if (total <? 0)%Z then "-" else "")
                      ++ agrupar "," (digitos (Z.abs total)))%string).
  rewrite cadeia_app, cadeia_agrupar.
  - destruct (total <? 0); reflexivity.
  - discriminate.
  - simpl. intuition discriminate.
  - apply so_algarismos_digitos.
Qed.

(** ** The model on concrete tables

    From here on the calendar is [calendario_iso] and the sort is the
    stable one. *)

#[local] Existing Instance calendario_iso.
#[local] Existing Instance ordenacao_estavel.

Definition linha_csv (p f : string) (fisica solicitada reservada disponivel avariada : Z)
    (data : string) : Linha :=
  mkLinha p f fisica solicitada reservada disponivel avariada 1%Q (Texto data)
    SemColuna SemColuna SemColuna None.

(** The three records of the spec's scenario, and a fourth with a date
    that does not parse. *)
Definition csv_exemplo : DataFrame :=
  [ linha_csv "A" "X" 100 20 95 5 10 "2024-01-10";
    linha_csv "B" "X" 50 0 0 60 0 "2024-06-01";
    linha_csv "C" "Y" 10 5 8 2 0 "2023-03-01";
    linha_csv "D" "Y" 7 1 0 7 0 "sem data" ].

Definition df_exemplo : DataFrame :=
  extrair_ano_mes (dropna (converter_datas csv_exemplo)).

Definition linha_A : Linha :=
  mkLinha "A" "X" 100 20 95 5 10 1%Q (Momento (2024, 1, 10))
    (Valor 2024) (Valor 1) SemColuna None.

Definition linha_B : Linha :=
  mkLinha "B" "X" 50 0 0 60 0 1%Q (Momento (2024, 6, 1))
    (Valor 2024) (Valor 6) SemColuna None.

Definition linha_C : Linha :=
  mkLinha "C" "Y" 10 5 8 2 0 1%Q (Momento (2023, 3, 1))
    (Valor 2023) (Valor 3) SemColuna None.

Example df_exemplo_linhas : df_exemplo = [linha_A; linha_B; linha_C].
Proof. reflexivity. Qed.

Example filtro_2024 : aplicar_filtros df_exemplo (Ano 2024) "Todos" = [linha_A; linha_B].
Proof. reflexivity. Qed.

Example meses_de_2024 : todos_meses df_exemplo (Ano 2024) = Some ["Todos"; "Jan"; "Jun"].
Proof. reflexivity. Qed.

Example avarias_2024 :
  map (fun l => (produto l, porcentagem_avaria l)) (analise_avarias [linha_A; linha_B])
  = [("A", Some (f_num (inject_Z 10 / inject_Z 100 * 100)%Q))].
Proof. reflexivity. Qed.

Example avarias_2024_dez_por_cento : (inject_Z 10 / inject_Z 100 * 100 == 10)%Q.
Proof. reflexivity. Qed.


Definition entradas_exemplo : Entradas :=
  mkEntradas (Ano 2024) "Todos" 10 180 10 (2024, 12, 1).

Definition mundo_exemplo : Mundo := mkMundo [df_exemplo; [linha_A; linha_B]] [].

Definition mundo_vazio : Mundo := mkMundo [df_exemplo; []] [].

(** A damaged item of which no unit is on hand. *)
Definition linha_sem_fisica : Linha :=
  mkLinha "E" "Z" 0 0 0 0 3 1%Q (Momento (2024, 2, 2))
    (Valor 2024) (Valor 2) SemColuna None.

(** Two manufacturers with the same total, ["B"] met first. *)
Definition linha_empate_B : Linha :=
  mkLinha "P1" "B" 10 0 0 10 0 1%Q (Momento (2024, 1, 10))
    (Valor 2024) (Valor 1) SemColuna None.

Definition linha_empate_A : Linha :=
  mkLinha "P2" "A" 10 0 0 10 0 1%Q (Momento (2024, 1, 11))
    (Valor 2024) (Valor 1) SemColuna None.

Definition df_empate : DataFrame := [linha_empate_B; linha_empate_A].

Example top_10_do_empate : df_top_10_fabricantes df_empate = [("A", 10); ("B", 10)].
Proof. reflexivity. Qed.

(** Two rows of one manufacturer whose quantities add up to 2^63: the sum
    wraps around, in the chart and in the overview. *)
Definition linha_grande (p : string) : Linha :=
  mkLinha p "X" 4611686018427387904 0 0 10 0 1%Q (Momento (2024, 1, 10))
    (Valor 2024) (Valor 1) SemColuna None.

Example top_10_com_estouro :
  df_top_10_fabricantes [linha_grande "P1"; linha_grande "P2"]
  = [("X", -9223372036854775808)].
Proof. reflexivity. Qed.

Example total_itens_fisicos_com_estouro :
  total_itens_fisicos [linha_grande "P1"; linha_grande "P2"] = -9223372036854775808.
Proof. reflexivity. Qed.

(** The stale-stock scenario of the spec: bought 200 days ago, 5 on hand
    and none on hand. *)
Definition linha_parada : Linha :=
  mkLinha "F" "W" 5 0 0 5 0 1%Q (Momento (2024, 5, 15))
    (Valor 2024) (Valor 5) SemColuna None.

Definition linha_zerada : Linha :=
  mkLinha "G" "W" 0 0 0 0 0 1%Q (Momento (2024, 5, 15))
    (Valor 2024) (Valor 5) SemColuna None.

Example estoque_parado_cenario :
  estoque_parado (atribuir_dias (2024, 12, 1) [linha_parada; linha_zerada]) 180
  = [com_dias linha_parada (Valor 200)].
Proof. reflexivity. Qed.

(** *** Witnesses *)



Lemma aplicar_filtros_todos_witness :
  nth_error (objetos mundo_exemplo) 0 = Some df_exemplo /\
  aplicar_filtros df_exemplo Todos "Todos" = df_exemplo /\
  filtrar 0 Todos "Todos" mundo_exemplo
  = Normal 2%nat (mkMundo [df_exemplo; [linha_A; linha_B]; df_exemplo] []).
Proof.
  split; [reflexivity|].
  destruct (aplicar_filtros_todos mundo_exemplo 0 df_exemplo eq_refl) as (E1 & E2 & _).
  split; [exact E1 | exact E2].
Defined.


Lemma mes_desconhecido_witness :
  aplicar_filtros df_exemplo (Ano 2024) "Janeiro" = [linha_A; linha_B].
Proof.
  apply (proj1 (mes_desconhecido_nao_filtra df_exemplo 2024 "Janeiro"
                  ltac:(discriminate)
                  ltac:(simpl; intuition discriminate))).
Defined.

Lemma produtos_criticos_witness :
  produtos_criticos [linha_A; linha_B] 10 = [linha_A].
Proof.
  apply (proj2 (proj2 (proj2 (produtos_criticos_corretos [linha_A; linha_B] 10))));
    reflexivity.
Defined.

Lemma top_10_fabricantes_witness :
  In "Y" (map fabricante df_exemplo) /\
  In ("Y", 10) (df_top_10_fabricantes df_exemplo) /\
  10 = total_do_fabricante df_exemplo "Y".
Proof.
  assert (H : In ("Y", 10) (df_top_10_fabricantes df_exemplo))
    by (right; left; reflexivity).
  split; [|split; [exact H|]];
    apply (proj1 (proj2 (proj2 (top_10_fabricantes_correto df_exemplo))) "Y" 10 H).
Defined.

Lemma secoes_sem_dados_witness :
  nth_error (objetos mundo_vazio) 1 = Some [] /\
  secoes 1 entradas_exemplo mundo_vazio
  = Normal tt
      (mkMundo [df_exemplo; []]
         [st_metric_produtos 0; st_metric_itens 0; st_metric_valor 0%Q;
          st_info NenhumDado; st_info NenhumDado; st_info NenhumDado;
          st_info NenhumDado; st_info NenhumDado; st_info NenhumDado]).
Proof.
  split; [reflexivity|].
  apply (secoes_sem_dados mundo_vazio 1 entradas_exemplo). reflexivity.
Defined.

Lemma porcentagem_avaria_divisao_por_zero_witness :
  quantidade_avariada linha_sem_fisica = 3 /\
  quantidade_fisica linha_sem_fisica = 0 /\
  exists l, analise_avarias [linha_sem_fisica] = [l] /\
            porcentagem_avaria l = Some f_inf.
Proof.
  split; [reflexivity|]. split; [reflexivity|].
  eexists. split; [reflexivity|].
  apply (porcentagem_avaria_divisao_por_zero [linha_sem_fisica]);
    [left; reflexivity | reflexivity].
Defined.

Lemma filtro_e_secoes_witness :
  nth_error (objetos mundo_exemplo) 1 = Some [linha_A; linha_B] /\
  exists m',
    parado 1 (hoje entradas_exemplo) (limite_dias_compra entradas_exemplo) mundo_exemplo
    = Normal tt m' /\
    nth_error (objetos m') 0 = Some df_exemplo /\
    nth_error (objetos m') 1
    = Some (atribuir_dias (hoje entradas_exemplo) [linha_A; linha_B]).
Proof.
  split; [reflexivity|].
  destruct (filtro_e_secoes_sobre_as_tabelas mundo_exemplo 1 [linha_A; linha_B]
              (Ano 2024) "Todos" entradas_exemplo eq_refl)
    as (_ & _ & _ & _ & _ & _ & _ & (m' & E & Hout & Hr) & _).
  exists m'. split; [exact E|]. split; [|exact Hr].
  rewrite (Hout 0%nat) by discriminate. reflexivity.
Defined.

Lemma filtro_por_ano_e_mes_witness :
  In (6, "Jun") MESES_ABREVIADOS /\
  In linha_B (aplicar_filtros df_exemplo (Ano 2024) "Jun").
Proof.
  assert (H : In (6, "Jun") MESES_ABREVIADOS) by (do 5 right; left; reflexivity).
  split; [exact H|].
  apply (proj2 (filtro_por_ano_e_mes df_exemplo 2024 6 "Jun" H linha_B)).
  split; [right; left; reflexivity | split; reflexivity].
Defined.

Lemma desempate_witness :
  ~ (desempate_por_primeira_aparicao [linha_empate_A; linha_empate_B]
       (df_top_10_fabricantes [linha_empate_A; linha_empate_B]) /\
     desempate_por_primeira_aparicao [linha_empate_B; linha_empate_A]
       (df_top_10_fabricantes [linha_empate_B; linha_empate_A])).
Proof.
  apply (desempate_nao_e_por_primeira_aparicao linha_empate_A linha_empate_B);
    reflexivity.
Defined.

Lemma porcentagem_avaria_sem_nan_witness :
  exists l x,
    In l (analise_avarias [linha_A; linha_B]) /\
    porcentagem_avaria l = Some x /\ x <> f_nan.
Proof.
  exists (com_colunas linha_A (Valor 2024) (Valor 1) SemColuna
            (Some (f_num (inject_Z 10 / inject_Z 100 * 100)%Q))).
  assert (H : In (com_colunas linha_A (Valor 2024) (Valor 1) SemColuna
                    (Some (f_num (inject_Z 10 / inject_Z 100 * 100)%Q)))
                 (analise_avarias [linha_A; linha_B])) by (left; reflexivity).
  destruct (porcentagem_avaria_sem_nan [linha_A; linha_B] _ H) as [x [E Hx]].
  exists x. split; [exact H | split; [exact E | exact Hx]].
Defined.

Lemma painel_sem_dados_witness :
  carregar_dados ArquivoAusente = (None, [st_error ArquivoNaoEncontrado]) /\
  painel ArquivoAusente entradas_exemplo (mkMundo [] [])
  = Normal tt (mkMundo [] [st_error ArquivoNaoEncontrado; st_info CarregueUmArquivo]).
Proof.
  split; [reflexivity|].
  apply (painel_sem_dados ArquivoAusente [st_error ArquivoNaoEncontrado]
           entradas_exemplo (mkMundo [] [])).
  reflexivity.
Defined.

Lemma texto_itens_pontos_witness :
  Z.abs 1234567 <= 2 ^ 53 /\ texto_itens 1234567 = "1.234.567".
Proof.
  assert (H : Z.abs 1234567 <= 2 ^ 53) by (simpl; lia).
  split; [exact H|].
  rewrite (texto_itens_pontos 1234567 H). reflexivity.
Defined.

Lemma selecao_nunca_vazia_witness :
  In (Ano 2024) (todos_anos df_exemplo) /\
  todos_meses df_exemplo (Ano 2024) = Some ["Todos"; "Jan"; "Jun"] /\
  aplicar_filtros df_exemplo (Ano 2024) "Jun" <> [].
Proof.
  assert (H1 : In (Ano 2024) (todos_anos df_exemplo)) by (right; left; reflexivity).
  assert (H2 : todos_meses df_exemplo (Ano 2024) = Some ["Todos"; "Jan"; "Jun"])
    by reflexivity.
  split; [exact H1|]. split; [exact H2|].
  apply (selecao_nunca_vazia df_exemplo (Ano 2024) ["Todos"; "Jan"; "Jun"] "Jun");
    [rewrite df_exemplo_linhas; discriminate | exact H1 | exact H2
     | right; right; left; reflexivity].
Defined.

Lemma extrair_ano_mes_apos_carga_witness :
  carregar_dados (Lido csv_exemplo) = (Some (dropna (converter_datas csv_exemplo)), []) /\
  dropna (dropna (converter_datas csv_exemplo)) = dropna (converter_datas csv_exemplo).
Proof.
  assert (H : carregar_dados (Lido csv_exemplo)
              = (Some (dropna (converter_datas csv_exemplo)), [])) by reflexivity.
  split; [exact H|].
  apply (proj1 (proj2 (extrair_ano_mes_apos_carga (Lido csv_exemplo) _ [] H))).
Defined.

Lemma painel_com_dados_witness :
  carregar_dados (Lido csv_exemplo) = (Some (dropna (converter_datas csv_exemplo)), []) /\
  exists m' df_filtrado,
    painel (Lido csv_exemplo) entradas_exemplo (mkMundo [] []) = Normal tt m' /\
    nth_error (objetos m') 0 = Some df_exemplo /\
    nth_error (objetos m') df_filtrado
    = Some (atribuir_dias (2024, 12, 1) [linha_A; linha_B]).
Proof.
  assert (H : carregar_dados (Lido csv_exemplo)
              = (Some (dropna (converter_datas csv_exemplo)), [])) by reflexivity.
  split; [exact H|].
  destruct (painel_com_dados (Lido csv_exemplo) _ [] entradas_exemplo (mkMundo [] []) H)
    as [_ Hok].
  destruct (painel (Lido csv_exemplo) entradas_exemplo (mkMundo [] []))
    as [[] m'|ex] eqn:E; [|discriminate E].
  destruct (Hok m' eq_refl) as (dfl & valor & resto & _ & Hest & _ & Hfil & _).
  exists m', dfl. split; [reflexivity|]. split; [exact Hest | exact Hfil].
Defined.

Lemma top_10_parte_do_total_witness :
  Forall (fun l => 0 <= quantidade_fisica l) df_exemplo /\
  somatorio (map quantidade_fisica df_exemplo) < 2 ^ 63 /\
  somatorio (map snd (df_top_10_fabricantes df_exemplo)) <= total_itens_fisicos df_exemplo.
Proof.
  assert (H : Forall (fun l => 0 <= quantidade_fisica l) df_exemplo).
  { rewrite df_exemplo_linhas. repeat constructor; simpl; lia. }
  assert (Hlim : somatorio (map quantidade_fisica df_exemplo) < 2 ^ 63).
  { rewrite df_exemplo_linhas. reflexivity. }
  split; [exact H|]. split; [exact Hlim|].
  apply (proj2 (top_10_parte_do_total df_exemplo H Hlim)).
Defined.

(** *** Counterexamples *)

(** C3 as stated fails: the stale-stock section changes the table it is
    given (the rows gain the column [dias_desde_ultima_compra]). *)
Lemma parado_altera_df_filtrado :
  ~ nao_altera_df_filtrado (fun r => parado r (2024, 12, 1) 180).
Proof.
  intros H.
  specialize (H mundo_exemplo 1%nat
                (mkMundo [df_exemplo; atribuir_dias (2024, 12, 1) [linha_A; linha_B]]
                   [tabela ["produto"; "fabricante"; "quantidade fisica";
                            "data ultima compra"; "dias_desde_ultima_compra"]
                      (estoque_parado (atribuir_dias (2024, 12, 1) [linha_A; linha_B]) 180)])
                eq_refl).
  change (Some (atribuir_dias (2024, 12, 1) [linha_A; linha_B])
          = Some [linha_A; linha_B]) in H.
  discriminate H.
Qed.


(** C4 as stated fails: with equal sums the manufacturer met first is not
    the first bar (the groups are formed in name order before the sort). *)
Lemma top_10_nao_desempata_por_primeira_aparicao :
  ~ desempate_por_primeira_aparicao df_empate (df_top_10_fabricantes df_empate).
Proof.
  intros H.
  specialize (H 0%nat 1%nat ("A", 10) ("B", 10) ltac:(lia) eq_refl eq_refl eq_refl).
  change (1 < 0)%nat in H. lia.
Qed.
